(** * PricingManagement: the subscription-plan editor

    A shallow embedding of the state and the event handlers of
    [src/components/PricingManagement.jsx], followed by the properties of
    the plan registry and of its edit session.

    The component keeps three pieces of React state ([plans],
    [editingPlan], [showAddPlan]); every handler reads the values of the
    current render and calls the setters, so a handler is a function from
    the state of one render to the state of the next.  No handler mutates
    an object or an array in place (every update goes through an object
    spread, [map], [filter] or an array spread), hence plans are modelled
    as values. *)

From Stdlib Require Import List ZArith QArith String Bool Lia.
Import ListNotations.

Open Scope string_scope.
Open Scope list_scope.
Open Scope Z_scope.

(** ** Completions

    A JavaScript call either returns or throws.  The only exception a
    handler of this component can raise is the [TypeError] of reading a
    property of [null]. *)

Inductive JsError : Type :=
| TypeError.

Inductive completion (A : Type) : Type :=
| Normal (a : A)
| Throw (e : JsError).

Arguments Normal {A} a.
Arguments Throw {A} e.

Definition bind {A B : Type} (c : completion A) (k : A -> completion B)
  : completion B :=
  match c with
  | Normal a => k a
  | Throw e => Throw e
  end.

Notation "x <- c ;; k" := (bind c (fun x => k))
  (at level 61, c at next level, right associativity).

(** [o.field] where [o] may be [null]. *)
Definition deref {A : Type} (o : option A) : completion A :=
  match o with
  | Some a => Normal a
  | None => Throw TypeError
  end.

(** ** Array methods *)

(** [Array.prototype.map] with a callback that may throw: the callback is
    run on the elements from left to right, the first exception aborts the
    call, and an empty array never runs the callback. *)
Fixpoint array_map {A B : Type} (f : A -> completion B) (l : list A)
  : completion (list B) :=
  match l with
  | [] => Normal []
  | x :: t =>
      y <- f x ;;
      ys <- array_map f t ;;
      Normal (y :: ys)
  end.

(** [Array.prototype.filter] with a callback [(element, index) => ...];
    [k] is the index of the head of [l] in the whole array. *)
Fixpoint filter_from {A : Type} (f : A -> Z -> bool) (k : Z) (l : list A)
  : list A :=
  match l with
  | [] => []
  | x :: t =>
      if f x k then x :: filter_from f (k + 1) t
      else filter_from f (k + 1) t
  end.

Definition array_filter {A : Type} (f : A -> Z -> bool) (l : list A)
  : list A :=
  filter_from f 0 l.

(** ** Plans *)

(** The icons imported from [lucide-react] that a plan may carry. *)
Inductive Icon : Type :=
| Star
| Crown
| Gem.

(** A plan object.  Numbers that the code only stores and displays
    (prices) are rationals; [id], [maxApps] and [subscribers] are
    integers ([maxApps = -1] means unlimited). *)
Record Plan : Type := mkPlan {
  id : Z;
  name : string;
  description : string;
  monthlyPrice : Q;
  yearlyPrice : Q;
  features : list string;
  maxApps : Z;
  isActive : bool;
  subscribers : Z;
  icon : Icon;
  color : string
}.

(** [{ ...plan }] : a fresh object with the same own properties. *)
Definition spread (plan : Plan) : Plan :=
  mkPlan (id plan) (name plan) (description plan) (monthlyPrice plan)
         (yearlyPrice plan) (features plan) (maxApps plan) (isActive plan)
         (subscribers plan) (icon plan) (color plan).

(** [{ ...plan, isActive: b }] *)
Definition with_isActive (b : bool) (plan : Plan) : Plan :=
  mkPlan (id plan) (name plan) (description plan) (monthlyPrice plan)
         (yearlyPrice plan) (features plan) (maxApps plan) b
         (subscribers plan) (icon plan) (color plan).

(** [{ ...plan, features: fs }] *)
Definition with_features (fs : list string) (plan : Plan) : Plan :=
  mkPlan (id plan) (name plan) (description plan) (monthlyPrice plan)
         (yearlyPrice plan) fs (maxApps plan) (isActive plan)
         (subscribers plan) (icon plan) (color plan).

(** ** Component state *)

Record State : Type := mkState {
  plans : list Plan;
  editingPlan : option Plan;
  showAddPlan : bool
}.

Definition setPlans (ps : list Plan) (st : State) : State :=
  mkState ps (editingPlan st) (showAddPlan st).

Definition setEditingPlan (e : option Plan) (st : State) : State :=
  mkState (plans st) e (showAddPlan st).

(** The three plans of the argument of [useState] (lines 56-96). *)
Definition basicPlan : Plan :=
  mkPlan 1 "الخطة الأساسية" "مثالية للأفراد والشركات الصغيرة"
    (1999 # 100) (1699 # 100)
    ["تطبيق دردشة واحد"; "تخصيص أساسي"; "دعم عبر البريد الإلكتروني"]
    1 true 1250 Star "blue".

Definition professionalPlan : Plan :=
  mkPlan 2 "الخطة الاحترافية" "مثالية للشركات النامية"
    (2999 # 100) (2499 # 100)
    ["5 تطبيقات دردشة"; "تخصيص متقدم"; "دعم ذو أولوية";
     "لوحة تحكم للتحليلات"]
    5 true 850 Crown "purple".

Definition diamondPlan : Plan :=
  mkPlan 3 "الخطة الماسية" "للشركات الكبيرة والمستخدمين المتقدمين"
    (3699 # 100) (3399 # 100)
    ["تطبيقات غير محدودة"; "تخصيص كامل"; "دعم 24/7"; "تحليلات متقدمة";
     "علامة بيضاء"]
    (-1) true 250 Gem "amber".

Definition initialPlans : list Plan :=
  [basicPlan; professionalPlan; diamondPlan].

Definition initialState : State :=
  mkState initialPlans None false.

(** ** Event handlers *)

(** [handleEditPlan] (lines 106-108). *)
Definition handleEditPlan (plan : Plan) (st : State) : State :=
  setEditingPlan (Some (spread plan)) st.

(** [handleSavePlan] (lines 114-119).  The callback of [map] reads
    [editingPlan.id] once per plan; [setPlans] and [setEditingPlan] are
    only reached when [map] has returned. *)
Definition handleSavePlan (st : State) : completion State :=
  newPlans <- array_map
                (fun plan =>
                   e <- deref (editingPlan st) ;;
                   Normal (if id plan =? id e then e else plan))
                (plans st) ;;
  Normal (setEditingPlan None (setPlans newPlans st)).

(** [handleCancelEdit] (lines 125-127). *)
Definition handleCancelEdit (st : State) : State :=
  setEditingPlan None st.

(** [handleDeletePlan] (lines 133-137); [confirmed] is the answer of
    [window.confirm]. *)
Definition handleDeletePlan (confirmed : bool) (planId : Z) (st : State)
  : State :=
  if confirmed
  then setPlans (filter (fun plan => negb (id plan =? planId)) (plans st)) st
  else st.

(** [handleTogglePlan] (lines 143-147). *)
Definition handleTogglePlan (planId : Z) (st : State) : State :=
  setPlans
    (map (fun plan =>
            if id plan =? planId
            then with_isActive (negb (isActive plan)) plan
            else plan)
         (plans st))
    st.

(** [addFeature] (lines 154-161). *)
Definition addFeature (planId : Z) (feature : string) (st : State) : State :=
  match editingPlan st with
  | Some e =>
      if id e =? planId
      then setEditingPlan (Some (with_features (features e ++ [feature]) e)) st
      else st
  | None => st
  end.

(** [removeFeature] (lines 168-175). *)
Definition removeFeature (planId : Z) (featureIndex : Z) (st : State)
  : State :=
  match editingPlan st with
  | Some e =>
      if id e =? planId
      then setEditingPlan
             (Some (with_features
                      (array_filter
                         (fun _ index => negb (index =? featureIndex))
                         (features e))
                      e))
             st
      else st
  | None => st
  end.

(** ** Callbacks

    The arrow functions passed to [map], as functions of the plan. *)

(** [plan => plan.id === editingPlan.id ? editingPlan : plan] when
    [editingPlan] is the object [e]. *)
Definition saved (e plan : Plan) : Plan :=
  if id plan =? id e then e else plan.

(** [plan => plan.id === planId ? { ...plan, isActive: !plan.isActive } : plan] *)
Definition toggled (planId : Z) (plan : Plan) : Plan :=
  if id plan =? planId then with_isActive (negb (isActive plan)) plan else plan.

(** ** Events

    One constructor per handler call.  The arguments are unconstrained:
    the rendered page only ever passes a plan of the registry, its id, or
    the index of a displayed feature, which is a special case. *)
Inductive Action : Type :=
| EditPlan (plan : Plan)
| SavePlan
| CancelEdit
| DeletePlan (confirmed : bool) (planId : Z)
| TogglePlan (planId : Z)
| AddFeature (planId : Z) (feature : string)
| RemoveFeature (planId : Z) (featureIndex : Z).

(** The completion of one handler call. *)
Definition dispatch (a : Action) (st : State) : completion State :=
  match a with
  | EditPlan plan => Normal (handleEditPlan plan st)
  | SavePlan => handleSavePlan st
  | CancelEdit => Normal (handleCancelEdit st)
  | DeletePlan confirmed planId => Normal (handleDeletePlan confirmed planId st)
  | TogglePlan planId => Normal (handleTogglePlan planId st)
  | AddFeature planId feature => Normal (addFeature planId feature st)
  | RemoveFeature planId featureIndex =>
      Normal (removeFeature planId featureIndex st)
  end.

(** The state of the next render: an exception thrown by a handler
    happens before any setter is called and leaves the state as it was. *)
Definition step (st : State) (a : Action) : State :=
  match dispatch a st with
  | Normal st' => st'
  | Throw _ => st
  end.

(** States reachable from the first render. *)
Inductive reachable : State -> Prop :=
| reachable_init : reachable initialState
| reachable_step st a : reachable st -> reachable (step st a).

(** The ids of the registry, in display order. *)
Definition ids (ps : list Plan) : list Z := map id ps.

(** ** Vocabulary of the properties *)

(** [q] differs from [p] in [isActive] at most. *)
Definition same_but_isActive (p q : Plan) : Prop :=
  id q = id p /\ name q = name p /\ description q = description p /\
  monthlyPrice q = monthlyPrice p /\ yearlyPrice q = yearlyPrice p /\
  features q = features p /\ maxApps q = maxApps p /\
  subscribers q = subscribers p /\ icon q = icon p /\ color q = color p.

(** ** Concrete states used below *)

(** A working copy of the basic plan with an empty name and a negative
    monthly price. *)
Definition invalidCopy : Plan :=
  mkPlan 1 "" (description basicPlan) (-5 # 1) (yearlyPrice basicPlan)
    (features basicPlan) 1 true 1250 Star "blue".

Definition invalidSession : State :=
  mkState initialPlans (Some invalidCopy) false.

(** A working copy of the basic plan whose features are ["A"; "B"]. *)
Definition copyAB : Plan := with_features ["A"; "B"] basicPlan.

Definition sessionAB : State :=
  mkState initialPlans (Some copyAB) false.

(** A registry that holds the basic plan (id 1) only. *)
Definition onlyBasic : State :=
  mkState [basicPlan] None false.

(** The registry after every plan has been deleted. *)
Definition emptyState : State :=
  mkState [] None false.

(** The first render, then the toggle of plan 2, then the confirmed
    deletion of plan 1. *)
Definition afterToggleDelete : State :=
  step (step initialState (TogglePlan 2)) (DeletePlan true 1).

(** * The rest of the component *)

(** ** Statistics cards (lines 209-255) *)

(** [plans.length] (line 217). *)
Definition totalPlans (st : State) : Z :=
  Z.of_nat (List.length (plans st)).

(** [plans.filter(p => p.isActive).length] (line 232). *)
Definition activePlans (st : State) : Z :=
  Z.of_nat (List.length (filter (fun p => isActive p) (plans st))).

(** [plans.reduce((sum, plan) => sum + plan.subscribers, 0)] (line 247).
    The sum is the exact one; it is the number that the page adds up in
    doubles when the subscribers are non-negative and their total is at
    most [2 ^ 53], since every partial sum is then an integer that a
    double holds exactly. *)
Definition totalSubscribers (st : State) : Z :=
  fold_left (fun sum plan => sum + subscribers plan) (plans st) 0.

(** ** The render of a card (lines 259-263) *)

(** [editingPlan && editingPlan.id === plan.id], as a condition. *)
Definition isEditing (st : State) (plan : Plan) : bool :=
  match editingPlan st with
  | Some e => id e =? id plan
  | None => false
  end.

(** [isEditing ? editingPlan : plan] *)
Definition currentPlan (st : State) (plan : Plan) : Plan :=
  match editingPlan st with
  | Some e => if id e =? id plan then e else plan
  | None => plan
  end.

(** The indices [0 .. l.length - 1] that [l.map((x, index) => ...)] passes
    to its callback. *)
Definition indices {A : Type} (l : list A) : list Z :=
  map Z.of_nat (seq 0 (List.length l)).

(** The calls of the named handlers that the render of the card of [plan]
    wires to its controls, in the order of the JSX: the switch (line 291),
    the edit button (294-302), and then either the remove button of every
    displayed feature (371-377), the add-feature button (389-399), save
    and cancel (410-427), or the delete button (428-438), whose handler
    runs with either answer of [window.confirm]. *)
Definition cardActions (st : State) (plan : Plan) : list Action :=
  [TogglePlan (id plan)]
  ++ (if isEditing st plan then [] else [EditPlan plan])
  ++ (if isEditing st plan
      then map (fun index => RemoveFeature (id plan) index)
               (indices (features (currentPlan st plan)))
           ++ [AddFeature (id plan) "ميزة جديدة"; SavePlan; CancelEdit]
      else [DeletePlan true (id plan); DeletePlan false (id plan)]).

(** [plans.map((plan) => ...)] (line 259): the handler calls the page
    offers in the state [st]. *)
Definition offered (st : State) : list Action :=
  flat_map (cardActions st) (plans st).

(** ** Inline handlers of the edit form

    The inputs of a card in edit mode call [setEditingPlan] directly with
    a spread of the [editingPlan] of that render, written [e] below. *)

(** [{ ...plan, name: v }] *)
Definition with_name (v : string) (plan : Plan) : Plan :=
  mkPlan (id plan) v (description plan) (monthlyPrice plan)
         (yearlyPrice plan) (features plan) (maxApps plan) (isActive plan)
         (subscribers plan) (icon plan) (color plan).

(** [{ ...plan, description: v }] *)
Definition with_description (v : string) (plan : Plan) : Plan :=
  mkPlan (id plan) (name plan) v (monthlyPrice plan)
         (yearlyPrice plan) (features plan) (maxApps plan) (isActive plan)
         (subscribers plan) (icon plan) (color plan).

(** [{ ...plan, monthlyPrice: v }] *)
Definition with_monthlyPrice (v : Q) (plan : Plan) : Plan :=
  mkPlan (id plan) (name plan) (description plan) v
         (yearlyPrice plan) (features plan) (maxApps plan) (isActive plan)
         (subscribers plan) (icon plan) (color plan).

(** [{ ...plan, yearlyPrice: v }] *)
Definition with_yearlyPrice (v : Q) (plan : Plan) : Plan :=
  mkPlan (id plan) (name plan) (description plan) (monthlyPrice plan)
         v (features plan) (maxApps plan) (isActive plan)
         (subscribers plan) (icon plan) (color plan).

(** [a[index] = v] on an array of strings.  For [0 <= index < a.length]
    the element is replaced and for [index = a.length] it is appended.
    [None] stands for the results that are no arrays of strings: a sparse
    array when [index] is past the length, an array with a named property
    when it is negative. *)
Definition array_assign {A : Type} (l : list A) (index : Z) (v : A)
  : option (list A) :=
  if (0 <=? index) && (index <? Z.of_nat (List.length l))
  then Some (firstn (Z.to_nat index) l ++ v :: skipn (S (Z.to_nat index)) l)
  else if index =? Z.of_nat (List.length l)
       then Some (l ++ [v])
       else None.

(** The name input (line 279). *)
Definition changeName (e : Plan) (value : string) (st : State) : State :=
  setEditingPlan (Some (with_name value e)) st.

(** The description textarea (line 310). *)
Definition changeDescription (e : Plan) (value : string) (st : State)
  : State :=
  setEditingPlan (Some (with_description value e)) st.

(** The monthly price input (line 329); [value] is the number that
    [parseFloat(e.target.value)] returned.  The prices of [Plan] are
    rationals, so a text that parses to [NaN] is not covered. *)
Definition changeMonthlyPrice (e : Plan) (value : Q) (st : State) : State :=
  setEditingPlan (Some (with_monthlyPrice value e)) st.

(** The yearly price input (line 345), as for the monthly price. *)
Definition changeYearlyPrice (e : Plan) (value : Q) (st : State) : State :=
  setEditingPlan (Some (with_yearlyPrice value e)) st.

(** The input of the feature at [index] (lines 364-368): a copy of the
    features is assigned at [index] and stored in the working copy. *)
Definition changeFeature (e : Plan) (index : Z) (value : string) (st : State)
  : option State :=
  match array_assign (features e) index value with
  | Some newFeatures =>
      Some (setEditingPlan (Some (with_features newFeatures e)) st)
  | None => None
  end.

(** The "add new plan" button (line 201): [setShowAddPlan(true)]. *)
Definition clickAddPlan (st : State) : State :=
  mkState (plans st) (editingPlan st) true.

(** What one input of the edit form of the working copy [e] can make of
    the state [st]; the feature inputs exist for the indices of the
    displayed features. *)
Inductive inlineEdit (e : Plan) (st : State) : State -> Prop :=
| edit_name value : inlineEdit e st (changeName e value st)
| edit_description value : inlineEdit e st (changeDescription e value st)
| edit_monthlyPrice value : inlineEdit e st (changeMonthlyPrice e value st)
| edit_yearlyPrice value : inlineEdit e st (changeYearlyPrice e value st)
| edit_feature index value st' :
    In index (indices (features e)) ->
    changeFeature e index value st = Some st' ->
    inlineEdit e st st'.

(** One event of the page: a call of a named handler that the render
    offers, the add-plan button, or an input of a card in edit mode. *)
Inductive ui_step (st : State) : State -> Prop :=
| ui_action a : In a (offered st) -> ui_step st (step st a)
| ui_addPlan : ui_step st (clickAddPlan st)
| ui_inline plan e st' :
    In plan (plans st) ->
    isEditing st plan = true ->
    editingPlan st = Some e ->
    inlineEdit e st st' ->
    ui_step st st'.

(** The states the page can reach from its first render, the price
    inputs being given texts that parse to a number (see
    [changeMonthlyPrice]). *)
Inductive ui_reachable : State -> Prop :=
| ui_reachable_init : ui_reachable initialState
| ui_reachable_step st st' :
    ui_reachable st -> ui_step st st' -> ui_reachable st'.

(** ** Sequences of handler calls *)

(** The state after the handler calls [actions], from left to right. *)
Definition run (st : State) (actions : list Action) : State :=
  fold_left step actions st.

(** The handler calls that only concern the edit session. *)
Definition sessionOnly (a : Action) : bool :=
  match a with
  | EditPlan _ | CancelEdit | AddFeature _ _ | RemoveFeature _ _ => true
  | SavePlan | DeletePlan _ _ | TogglePlan _ => false
  end.

(** ** [getColorClasses] (lines 182-189) *)

(** The own properties of the object literal [colors]. *)
Definition colors : list (string * string) :=
  [ ("blue", "bg-blue-500 text-blue-600 bg-blue-100");
    ("purple", "bg-purple-500 text-purple-600 bg-purple-100");
    ("amber", "bg-amber-500 text-amber-600 bg-amber-100") ].

(** The property names that an object literal inherits from
    [Object.prototype]; each of them holds a function or an object. *)
Definition objectPrototypeKeys : list string :=
  [ "constructor"; "hasOwnProperty"; "isPrototypeOf"; "propertyIsEnumerable";
    "toLocaleString"; "toString"; "valueOf"; "__proto__";
    "__defineGetter__"; "__defineSetter__"; "__lookupGetter__";
    "__lookupSetter__" ].

(** What a property read on [colors] can give. *)
Inductive JsValue : Type :=
| StringValue (s : string)
| PrototypeMember (key : string)
| Undefined.

Fixpoint ownProperty (key : string) (o : list (string * string))
  : option string :=
  match o with
  | [] => None
  | (k, v) :: rest => if String.eqb k key then Some v else ownProperty key rest
  end.

(** [colors[color]] *)
Definition colorsGet (color : string) : JsValue :=
  match ownProperty color colors with
  | Some s => StringValue s
  | None =>
      if existsb (String.eqb color) objectPrototypeKeys
      then PrototypeMember color
      else Undefined
  end.

(** [colors[color] || colors.blue]: the empty string and [undefined] are
    falsy, a function or an object is truthy. *)
Definition getColorClasses (color : string) : JsValue :=
  match colorsGet color with
  | StringValue EmptyString => colorsGet "blue"
  | Undefined => colorsGet "blue"
  | v => v
  end.

(** [s.split(' ')] *)
Fixpoint split_space (s : string) : list string :=
  match s with
  | EmptyString => [EmptyString]
  | String c rest =>
      if String.eqb (String c EmptyString) " "
      then EmptyString :: split_space rest
      else match split_space rest with
           | first :: others => String c first :: others
           | [] => [String c EmptyString]
           end
  end.

(** [getColorClasses(plan.color).split(' ')] (line 263): a value that is
    no string has no [split] method. *)
Definition colorClasses (plan : Plan) : completion (list string) :=
  match getColorClasses (color plan) with
  | StringValue s => Normal (split_space s)
  | PrototypeMember _ => Throw TypeError
  | Undefined => Throw TypeError
  end.

(** The part of a plan that no control of the page can change. *)
Definition fixedFields (plan : Plan) : Z * Z * Z * Icon * string :=
  (id plan, maxApps plan, subscribers plan, icon plan, color plan).

(** The invariant of the page.  Up to the fields that the form and the
    switch write, the registry is the initial registry with some plans
    filtered out, and the working copy is a copy of a plan of the
    registry. *)
Definition ui_invariant (st : State) : Prop :=
  (exists keep : Z * Z * Z * Icon * string -> bool,
      map fixedFields (plans st)
      = filter keep (map fixedFields initialPlans)) /\
  (forall e,
      editingPlan st = Some e ->
      exists plan, In plan (plans st) /\ fixedFields plan = fixedFields e).

(** * The dashboard layout ([Dashboard]) *)

Module Dashboard.

(** The icons of the navigation menu. *)
Inductive NavIcon : Type :=
| Home
| DollarSign
| Users
| MessageSquare
| Settings.

Record NavItem : Type := mkNavItem {
  id : string;
  name : string;
  icon : NavIcon
}.

(** [navigation] (lines 58-64). *)
Definition navigation : list NavItem :=
  [ mkNavItem "home" "لوحة التحكم" Home;
    mkNavItem "pricing" "إدارة الأسعار" DollarSign;
    mkNavItem "users" "إدارة المستخدمين" Users;
    mkNavItem "buttons" "أزرار الدردشة" MessageSquare;
    mkNavItem "settings" "الإعدادات" Settings ].

(** The two pieces of state of the component (lines 54-55). *)
Record State : Type := mkState {
  activeTab : string;
  sidebarOpen : bool
}.

Definition initialState : State := mkState "home" false.

(** What [renderContent] can return. *)
Inductive Content : Type :=
| DashboardHomeContent
| PricingManagementContent
| UsersPlaceholder
| ButtonsPlaceholder
| SettingsPlaceholder.

(** [renderContent] (lines 70-115): the [switch] compares [activeTab]
    with the case labels in order and falls to [default] otherwise. *)
Definition renderContent (st : State) : Content :=
  if String.eqb (activeTab st) "home" then DashboardHomeContent
  else if String.eqb (activeTab st) "pricing" then PricingManagementContent
  else if String.eqb (activeTab st) "users" then UsersPlaceholder
  else if String.eqb (activeTab st) "buttons" then ButtonsPlaceholder
  else if String.eqb (activeTab st) "settings" then SettingsPlaceholder
  else DashboardHomeContent.

(** [activeTab === item.id] (line 155): whether the button of [item] is
    drawn as the active one. *)
Definition isActive (st : State) (item : NavItem) : bool :=
  String.eqb (activeTab st) (id item).

(** The click on the button of [item] (lines 159-162). *)
Definition selectTab (item : NavItem) (st : State) : State :=
  mkState (id item) false.

(** The overlay and the close button (lines 123 and 144). *)
Definition closeSidebar (st : State) : State :=
  mkState (activeTab st) false.

(** The menu button (line 214). *)
Definition openSidebar (st : State) : State :=
  mkState (activeTab st) true.

(** One click on the layout; the overlay exists while the sidebar is
    open, one navigation button exists per item of [navigation]. *)
Inductive step (st : State) : State -> Prop :=
| step_nav item : In item navigation -> step st (selectTab item st)
| step_overlay : sidebarOpen st = true -> step st (closeSidebar st)
| step_close : step st (closeSidebar st)
| step_menu : step st (openSidebar st).

Inductive reachable : State -> Prop :=
| reachable_init : reachable initialState
| reachable_step st st' : reachable st -> step st st' -> reachable st'.

End Dashboard.

(** * Login ([LoginPage] and [App]) *)

Module App.

(** What [App] renders (lines 57-68). *)
Inductive View : Type :=
| LoginPageView
| DashboardView.

(** [handleLogin] (lines 45-47): the next value of [isLoggedIn]. *)
Definition handleLogin (success : bool) (isLoggedIn : bool) : bool :=
  success.

(** [handleLogout] (lines 53-55). *)
Definition handleLogout (isLoggedIn : bool) : bool :=
  false.

(** [isLoggedIn ? <Dashboard /> : <LoginPage />] *)
Definition render (isLoggedIn : bool) : View :=
  if isLoggedIn then DashboardView else LoginPageView.

End App.

Module LoginPage.

(** The test of the timer callback of [handleSubmit] (line 47). *)
Definition credentialsMatch (email password : string) : bool :=
  String.eqb email "dmposhy04@gmail.com"
  && String.eqb password "A123456789a".

(** The body of the timer callback (lines 46-52) for the [email] and
    [password] of the render that submitted, over the [isLoggedIn] of
    [App] that [onLogin] sets: the next [isLoggedIn], the message passed
    to [alert] if any, and the next [isLoading]. *)
Definition timerCallback (email password : string) (isLoggedIn : bool)
  : bool * option string * bool :=
  if credentialsMatch email password
  then (App.handleLogin true isLoggedIn, None, false)
  else (isLoggedIn, Some "بيانات الدخول غير صحيحة", false).

End LoginPage.

(** * Properties *)

(** ** Object spreads *)

Lemma spread_eq (plan : Plan) : spread plan = plan.
Proof. now destruct plan. Qed.

Lemma with_isActive_same (plan : Plan) :
  with_isActive (isActive plan) plan = plan.
Proof. now destruct plan. Qed.

Lemma with_isActive_twice (plan : Plan) :
  with_isActive (negb (isActive (with_isActive (negb (isActive plan)) plan)))
                (with_isActive (negb (isActive plan)) plan) = plan.
Proof. destruct plan; simpl; unfold with_isActive; simpl. now rewrite negb_involutive. Qed.

Lemma with_isActive_id (b : bool) (plan : Plan) :
  id (with_isActive b plan) = id plan.
Proof. reflexivity. Qed.

Lemma with_features_same (plan : Plan) :
  with_features (features plan) plan = plan.
Proof. now destruct plan. Qed.

Lemma setEditingPlan_same (st : State) :
  setEditingPlan (editingPlan st) st = st.
Proof. now destruct st. Qed.

Lemma setPlans_same (st : State) : setPlans (plans st) st = st.
Proof. now destruct st. Qed.

Create Rewrite HintDb plan_simpl.
#[local] Hint Rewrite spread_eq with_isActive_same with_features_same
  setEditingPlan_same setPlans_same : plan_simpl.

(** ** Array methods *)

Section ArrayMethods.
Context {A B : Type}.

(** A callback that returns on every element makes [array_map] the
    ordinary [map]. *)
Lemma array_map_normal (f : A -> completion B) (g : A -> B) (l : list A) :
  (forall x, In x l -> f x = Normal (g x)) ->
  array_map f l = Normal (map g l).
Proof.
  induction l as [|x t IH]; intros Hf; simpl.
  - reflexivity.
  - rewrite (Hf x (or_introl eq_refl)); simpl.
    rewrite IH by (intros y Hy; apply Hf; now right).
    reflexivity.
Qed.

(** A callback that throws on the first element aborts the call. *)
Lemma array_map_throw (f : A -> completion B) (x : A) (t : list A)
      (e : JsError) :
  f x = Throw e -> array_map f (x :: t) = Throw e.
Proof. intros Hx; simpl; now rewrite Hx. Qed.

(** Filtering on [index !== i] keeps the whole array when no element
    sits at index [i]. *)
Lemma filter_from_out_of_range (i k : Z) (l : list A) :
  i < k \/ k + Z.of_nat (List.length l) <= i ->
  filter_from (fun _ index => negb (index =? i)) k l = l.
Proof.
  revert k; induction l as [|x t IH]; intros k Hi; simpl.
  - reflexivity.
  - simpl List.length in Hi; rewrite Nat2Z.inj_succ in Hi.
    destruct (Z.eqb_spec k i) as [->|Hk]; [lia|]; simpl.
    f_equal; apply IH; lia.
Qed.

(** ... and drops exactly the element at index [i] otherwise. *)
Lemma filter_from_in_range (i k : Z) (l : list A) :
  k <= i < k + Z.of_nat (List.length l) ->
  filter_from (fun _ index => negb (index =? i)) k l
  = firstn (Z.to_nat (i - k)) l ++ skipn (S (Z.to_nat (i - k))) l.
Proof.
  revert k; induction l as [|x t IH]; intros k Hi; simpl List.length in Hi.
  - simpl in Hi; lia.
  - rewrite Nat2Z.inj_succ in Hi; simpl filter_from.
    destruct (Z.eqb_spec k i) as [->|Hk]; simpl negb; cbv iota.
    + rewrite Z.sub_diag; simpl.
      apply filter_from_out_of_range; lia.
    + replace (Z.to_nat (i - k)) with (S (Z.to_nat (i - (k + 1)))) by lia.
      simpl; f_equal; apply IH; lia.
Qed.
End ArrayMethods.

(** ** The registry after each handler *)

Lemma saved_id (e plan : Plan) : id (saved e plan) = id plan.
Proof.
  unfold saved; destruct (Z.eqb_spec (id plan) (id e)); congruence.
Qed.

Lemma toggled_id (planId : Z) (plan : Plan) :
  id (toggled planId plan) = id plan.
Proof. unfold toggled; now destruct (id plan =? planId). Qed.

Lemma toggled_twice (planId : Z) (plan : Plan) :
  toggled planId (toggled planId plan) = plan.
Proof.
  unfold toggled at 2; destruct (Z.eqb_spec (id plan) planId) as [Heq|Hne].
  - unfold toggled; rewrite with_isActive_id.
    apply Z.eqb_eq in Heq; rewrite Heq. apply with_isActive_twice.
  - unfold toggled; apply Z.eqb_neq in Hne; now rewrite Hne.
Qed.

(** With a session open the callback of [handleSavePlan] never throws. *)
Lemma handleSavePlan_open (st : State) (e : Plan) :
  editingPlan st = Some e ->
  handleSavePlan st
  = Normal (mkState (map (saved e) (plans st)) None (showAddPlan st)).
Proof.
  intros He; unfold handleSavePlan.
  rewrite (array_map_normal _ (saved e)).
  - reflexivity.
  - intros plan _; now rewrite He.
Qed.

(** Without a session the first plan of the registry makes it throw. *)
Lemma handleSavePlan_null (st : State) (plan : Plan) (rest : list Plan) :
  editingPlan st = None ->
  plans st = plan :: rest ->
  handleSavePlan st = Throw TypeError.
Proof.
  intros He Hp; unfold handleSavePlan; rewrite Hp.
  rewrite (array_map_throw _ _ _ TypeError); [reflexivity|].
  now rewrite He.
Qed.

(** Without a session and without plans the callback never runs. *)
Lemma handleSavePlan_empty (st : State) :
  editingPlan st = None ->
  plans st = [] ->
  handleSavePlan st = Normal st.
Proof.
  intros He Hp; unfold handleSavePlan; rewrite Hp; simpl.
  destruct st as [ps e b]; simpl in *; subst; reflexivity.
Qed.

Lemma ids_map_saved (e : Plan) (ps : list Plan) :
  ids (map (saved e) ps) = ids ps.
Proof.
  unfold ids; rewrite map_map; apply map_ext; intros; apply saved_id.
Qed.

Lemma ids_map_toggled (planId : Z) (ps : list Plan) :
  ids (map (toggled planId) ps) = ids ps.
Proof.
  unfold ids; rewrite map_map; apply map_ext; intros; apply toggled_id.
Qed.

(** Filtering the plans on their id is filtering the ids. *)
Lemma ids_filter (planId : Z) (ps : list Plan) :
  ids (filter (fun plan => negb (id plan =? planId)) ps)
  = filter (fun i => negb (i =? planId)) (ids ps).
Proof.
  induction ps as [|p t IH]; simpl; [reflexivity|].
  destruct (id p =? planId); simpl; now rewrite IH.
Qed.

(** Deleting an id that no plan carries keeps every plan. *)
Lemma filter_absent (planId : Z) (ps : list Plan) :
  ~ In planId (ids ps) ->
  filter (fun plan => negb (id plan =? planId)) ps = ps.
Proof.
  induction ps as [|p t IH]; simpl; intros Hn; [reflexivity|].
  destruct (Z.eqb_spec (id p) planId) as [Heq|Hne]; simpl.
  - exfalso; apply Hn; now left.
  - f_equal; apply IH; intros Hin; apply Hn; now right.
Qed.

Lemma Forall2_map_self {A : Type} (R : A -> A -> Prop) (f : A -> A)
      (l : list A) :
  (forall x, R x (f x)) -> Forall2 R l (map f l).
Proof. intros HR; induction l; simpl; constructor; auto. Qed.

Lemma toggled_same_but_isActive (planId : Z) (plan : Plan) :
  same_but_isActive plan (toggled planId plan).
Proof.
  unfold toggled; destruct (id plan =? planId); unfold same_but_isActive;
    simpl; repeat split; reflexivity.
Qed.

Lemma toggled_other (planId : Z) (plan : Plan) :
  id plan <> planId -> toggled planId plan = plan.
Proof. intros Hne; unfold toggled; apply Z.eqb_neq in Hne; now rewrite Hne. Qed.

(** One toggle does flip the flag of a plan that carries the id. *)
Lemma handleTogglePlan_flips (st : State) (plan : Plan) :
  In plan (plans st) ->
  In (with_isActive (negb (isActive plan)) plan)
     (plans (handleTogglePlan (id plan) st)).
Proof.
  intros Hin; simpl.
  apply in_map_iff; exists plan; split; [|assumption].
  now rewrite Z.eqb_refl.
Qed.

(** An in-range [removeFeature] drops exactly the feature at that index. *)
Lemma removeFeature_in_range (st : State) (e : Plan) (i : Z) :
  editingPlan st = Some e ->
  0 <= i < Z.of_nat (List.length (features e)) ->
  editingPlan (removeFeature (id e) i st)
  = Some (with_features
            (firstn (Z.to_nat i) (features e)
             ++ skipn (S (Z.to_nat i)) (features e)) e).
Proof.
  intros He Hi; unfold removeFeature; rewrite He, Z.eqb_refl; simpl.
  unfold array_filter; rewrite filter_from_in_range by lia.
  now rewrite Z.sub_0_r.
Qed.

(** ** The invariant of the registry *)

(** Every handler call keeps the ids of the registry or filters them. *)
Lemma step_ids (st : State) (a : Action) :
  ids (plans (step st a)) = ids (plans st) \/
  exists planId,
    ids (plans (step st a)) = filter (fun i => negb (i =? planId)) (ids (plans st)).
Proof.
  unfold step; destruct a as [plan| | |confirmed planId|planId|planId f|planId i];
    simpl.
  - now left.
  - destruct (editingPlan st) as [e|] eqn:He.
    + rewrite (handleSavePlan_open st e He); simpl; left; apply ids_map_saved.
    + destruct (plans st) as [|p t] eqn:Hp.
      * rewrite (handleSavePlan_empty st He Hp); left; now rewrite Hp.
      * rewrite (handleSavePlan_null st p t He Hp); left; now rewrite Hp.
  - now left.
  - destruct confirmed; simpl; [right|now left].
    exists planId; apply ids_filter.
  - left; apply (ids_map_toggled planId).
  - unfold addFeature; destruct (editingPlan st) as [e|]; [|now left].
    destruct (id e =? planId); now left.
  - unfold removeFeature; destruct (editingPlan st) as [e|]; [|now left].
    destruct (id e =? planId); now left.
Qed.

Lemma initialPlans_distinct : NoDup (ids (plans initialState)).
Proof.
  simpl; repeat constructor; simpl; intuition discriminate.
Qed.

(** * The claims *)

(** C1.  With an edit session open on the working copy [e],
    [handleSavePlan] returns normally; the registry keeps its length and
    its order, every entry whose id equals the id of [e] becomes [e],
    every entry with another id is unchanged, the session is closed
    ([editingPlan] is [null]) and a following [handleCancelEdit] changes
    nothing. *)
Theorem handleSavePlan_replaces_exactly (st : State) (e : Plan) :
  editingPlan st = Some e ->
  exists st',
    handleSavePlan st = Normal st' /\
    List.length (plans st') = List.length (plans st) /\
    (forall k plan,
        nth_error (plans st) k = Some plan ->
        (id plan = id e -> nth_error (plans st') k = Some e) /\
        (id plan <> id e -> nth_error (plans st') k = Some plan)) /\
    editingPlan st' = None /\
    handleCancelEdit st' = st'.
Proof.
  intros He; eexists; split; [apply (handleSavePlan_open st e He)|]; simpl.
  split; [apply length_map|].
  split; [|split; reflexivity].
  intros k plan Hk; rewrite nth_error_map, Hk; simpl; unfold saved.
  destruct (Z.eqb_spec (id plan) (id e)); split; intros; congruence.
Qed.

Lemma handleSavePlan_replaces_exactly_witness :
  editingPlan sessionAB = Some copyAB /\
  exists st',
    handleSavePlan sessionAB = Normal st' /\
    List.length (plans st') = List.length (plans sessionAB) /\
    (forall k plan,
        nth_error (plans sessionAB) k = Some plan ->
        (id plan = id copyAB -> nth_error (plans st') k = Some copyAB) /\
        (id plan <> id copyAB -> nth_error (plans st') k = Some plan)) /\
    editingPlan st' = None /\
    handleCancelEdit st' = st'.
Proof.
  split; [reflexivity|].
  apply (handleSavePlan_replaces_exactly sessionAB copyAB); reflexivity.
Defined.

(** C2.  For a plan of the registry, [handleEditPlan] puts a clone of it
    in [editingPlan] and leaves the registry as it is; the
    [handleCancelEdit] that follows leaves the registry equal to what it
    was before [handleEditPlan] (so the entry of that id is unchanged) and
    no session open. *)
Theorem handleEditPlan_handleCancelEdit (st : State) (plan : Plan) :
  In plan (plans st) ->
  editingPlan (handleEditPlan plan st) = Some plan /\
  plans (handleEditPlan plan st) = plans st /\
  plans (handleCancelEdit (handleEditPlan plan st)) = plans st /\
  editingPlan (handleCancelEdit (handleEditPlan plan st)) = None.
Proof.
  intros _; unfold handleEditPlan; autorewrite with plan_simpl; simpl; auto.
Qed.

Lemma handleEditPlan_handleCancelEdit_witness :
  In professionalPlan (plans initialState) /\
  editingPlan (handleEditPlan professionalPlan initialState)
  = Some professionalPlan /\
  plans (handleEditPlan professionalPlan initialState) = plans initialState /\
  plans (handleCancelEdit (handleEditPlan professionalPlan initialState))
  = plans initialState /\
  editingPlan (handleCancelEdit (handleEditPlan professionalPlan initialState))
  = None.
Proof.
  assert (Hin : In professionalPlan (plans initialState))
    by (simpl; right; left; reflexivity).
  split; [exact Hin|].
  exact (handleEditPlan_handleCancelEdit initialState professionalPlan Hin).
Defined.

(** C3.  In every state reachable from the first render by calls of
    [handleEditPlan], [handleSavePlan], [handleCancelEdit],
    [handleDeletePlan], [handleTogglePlan], [addFeature] and
    [removeFeature], with any arguments, the ids of the plans of the
    registry are pairwise distinct. *)
Theorem reachable_ids_distinct (st : State) :
  reachable st -> NoDup (ids (plans st)).
Proof.
  induction 1 as [|st a Hr IH].
  - apply initialPlans_distinct.
  - destruct (step_ids st a) as [Heq|[planId Heq]]; rewrite Heq.
    + exact IH.
    + now apply NoDup_filter.
Qed.

Lemma reachable_ids_distinct_witness :
  reachable afterToggleDelete /\ NoDup (ids (plans afterToggleDelete)).
Proof.
  assert (Hr : reachable afterToggleDelete)
    by (unfold afterToggleDelete; do 2 apply reachable_step; apply reachable_init).
  split; [exact Hr|].
  exact (reachable_ids_distinct afterToggleDelete Hr).
Defined.

(** C4, as the code behaves.  [handleSavePlan] validates nothing: with a
    session open on any working copy [e], whatever its fields (an empty
    name and a negative price included), it returns normally, closes the
    session and keeps the length and the ids of the registry; position by
    position, every entry that has the id of [e] becomes [e] and every
    entry with another id is unchanged, so the registry holds [e] as soon
    as it held a plan with the id of [e]. *)
Theorem handleSavePlan_never_validates (st : State) (e : Plan) :
  editingPlan st = Some e ->
  exists st',
    handleSavePlan st = Normal st' /\
    editingPlan st' = None /\
    ids (plans st') = ids (plans st) /\
    (In (id e) (ids (plans st)) -> In e (plans st')) /\
    List.length (plans st') = List.length (plans st) /\
    (forall k plan,
        nth_error (plans st) k = Some plan ->
        (id plan = id e -> nth_error (plans st') k = Some e) /\
        (id plan <> id e -> nth_error (plans st') k = Some plan)).
Proof.
  intros He; eexists; split; [apply (handleSavePlan_open st e He)|]; simpl.
  split; [reflexivity|].
  split; [apply ids_map_saved|].
  split; [|split; [apply length_map|]].
  - unfold ids; intros Hin; apply in_map_iff in Hin as [plan [Hid Hin]].
    apply in_map_iff; exists plan; split; [|assumption].
    unfold saved; apply Z.eqb_eq in Hid; now rewrite Hid.
  - intros k plan Hk; rewrite nth_error_map, Hk; simpl; unfold saved.
    destruct (Z.eqb_spec (id plan) (id e)); split; intros; congruence.
Qed.

Lemma handleSavePlan_never_validates_witness :
  editingPlan invalidSession = Some invalidCopy /\
  exists st',
    handleSavePlan invalidSession = Normal st' /\
    editingPlan st' = None /\
    ids (plans st') = ids (plans invalidSession) /\
    (In (id invalidCopy) (ids (plans invalidSession)) ->
     In invalidCopy (plans st')) /\
    List.length (plans st') = List.length (plans invalidSession) /\
    (forall k plan,
        nth_error (plans invalidSession) k = Some plan ->
        (id plan = id invalidCopy ->
         nth_error (plans st') k = Some invalidCopy) /\
        (id plan <> id invalidCopy ->
         nth_error (plans st') k = Some plan)).
Proof.
  split; [reflexivity|].
  apply (handleSavePlan_never_validates invalidSession invalidCopy);
    reflexivity.
Defined.

(** C4 fails as stated: the working copy [invalidCopy] has an empty name
    and a negative monthly price, and [handleSavePlan] returns normally,
    writes it over the basic plan and closes the session. *)
Lemma handleSavePlan_invalid_counterexample :
  name invalidCopy = "" /\
  (monthlyPrice invalidCopy < 0)%Q /\
  handleSavePlan invalidSession
  = Normal (mkState [invalidCopy; professionalPlan; diamondPlan] None false) /\
  [invalidCopy; professionalPlan; diamondPlan] <> plans invalidSession.
Proof.
  repeat split; try reflexivity.
  simpl; intros Heq; discriminate Heq.
Qed.

(** C5, as the code behaves.  With a session open on [e] and an index
    [i] outside [0 .. n-1], where [n] is the number of features of [e],
    [removeFeature (id e) i] returns normally and leaves the state, hence
    the feature list of the working copy, unchanged. *)
Theorem removeFeature_out_of_range (st : State) (e : Plan) (i : Z) :
  editingPlan st = Some e ->
  i < 0 \/ Z.of_nat (List.length (features e)) <= i ->
  dispatch (RemoveFeature (id e) i) st = Normal st /\
  editingPlan (removeFeature (id e) i st) = Some e.
Proof.
  intros He Hi.
  assert (Hst : removeFeature (id e) i st = st).
  { unfold removeFeature; rewrite He, Z.eqb_refl.
    unfold array_filter; rewrite filter_from_out_of_range by lia.
    rewrite with_features_same, <- He; apply setEditingPlan_same. }
  simpl; rewrite Hst; auto.
Qed.

Lemma removeFeature_out_of_range_witness :
  editingPlan sessionAB = Some copyAB /\
  (5 < 0 \/ Z.of_nat (List.length (features copyAB)) <= 5) /\
  dispatch (RemoveFeature (id copyAB) 5) sessionAB = Normal sessionAB /\
  editingPlan (removeFeature (id copyAB) 5 sessionAB) = Some copyAB.
Proof.
  assert (Hi : 5 < 0 \/ Z.of_nat (List.length (features copyAB)) <= 5)
    by (right; simpl; lia).
  split; [reflexivity|].
  split; [exact Hi|].
  exact (removeFeature_out_of_range sessionAB copyAB 5 eq_refl Hi).
Defined.

(** C5 fails as stated: with the session open on plan 1 with features
    ["A"; "B"], [removeFeature(1, 5)] returns normally; it throws
    nothing. *)
Lemma removeFeature_counterexample :
  features copyAB = ["A"; "B"] /\
  editingPlan sessionAB = Some copyAB /\
  dispatch (RemoveFeature 1 5) sessionAB = Normal sessionAB.
Proof. repeat split; reflexivity. Qed.

(** C6, as the code behaves.  [handleEditPlan] receives the plan object,
    looks nothing up and cannot fail: for every registry, every earlier
    session and every plan passed, in the registry or not, it returns
    normally, leaves the registry unchanged and opens a session that
    holds a clone of the fields of that plan, in place of any session
    that was open. *)
Theorem handleEditPlan_total (st : State) (plan : Plan) :
  exists st',
    dispatch (EditPlan plan) st = Normal st' /\
    plans st' = plans st /\
    editingPlan st' = Some plan.
Proof.
  eexists; split; [reflexivity|].
  unfold handleEditPlan; autorewrite with plan_simpl; simpl; auto.
Qed.

(** C6 fails as stated: the registry [onlyBasic] holds id 1 only, the
    plan passed has id 2, and [handleEditPlan] returns normally with a
    session open on that plan. *)
Lemma handleEditPlan_absent_counterexample :
  ids (plans onlyBasic) = [1] /\
  id professionalPlan = 2 /\
  dispatch (EditPlan professionalPlan) onlyBasic
  = Normal (mkState [basicPlan] (Some professionalPlan) false).
Proof. repeat split; reflexivity. Qed.

(** C7.  For an id carried by a plan of the registry, two calls of
    [handleTogglePlan] with that id give back the state before the two
    calls: the registry, and with it the [isActive] flag of that plan,
    is what it was. *)
Theorem handleTogglePlan_twice (st : State) (planId : Z) :
  In planId (ids (plans st)) ->
  handleTogglePlan planId (handleTogglePlan planId st) = st.
Proof.
  intros _; destruct st as [ps e b]; unfold handleTogglePlan, setPlans; simpl.
  f_equal; rewrite map_map.
  rewrite <- (map_id ps) at 2; apply map_ext; intros plan.
  apply (toggled_twice planId plan).
Qed.

Lemma handleTogglePlan_twice_witness :
  In 2 (ids (plans initialState)) /\
  handleTogglePlan 2 (handleTogglePlan 2 initialState) = initialState.
Proof.
  assert (Hin : In 2 (ids (plans initialState)))
    by (simpl; right; left; reflexivity).
  split; [exact Hin|].
  exact (handleTogglePlan_twice initialState 2 Hin).
Defined.

(** C8.  For an id that no plan of the registry carries,
    [handleDeletePlan], whatever the answer to the confirmation and in
    particular when the user confirms, leaves the state unchanged: the
    registry keeps its size and its contents. *)
Theorem handleDeletePlan_absent (st : State) (confirmed : bool) (planId : Z) :
  ~ In planId (ids (plans st)) ->
  handleDeletePlan confirmed planId st = st /\
  List.length (plans (handleDeletePlan true planId st))
  = List.length (plans st) /\
  plans (handleDeletePlan true planId st) = plans st.
Proof.
  intros Hn.
  assert (Ht : handleDeletePlan true planId st = st).
  { unfold handleDeletePlan; rewrite (filter_absent planId _ Hn).
    now autorewrite with plan_simpl. }
  rewrite Ht; destruct confirmed; auto.
Qed.

Lemma handleDeletePlan_absent_witness :
  ~ In 4 (ids (plans initialState)) /\
  handleDeletePlan true 4 initialState = initialState /\
  List.length (plans (handleDeletePlan true 4 initialState))
  = List.length (plans initialState) /\
  plans (handleDeletePlan true 4 initialState) = plans initialState.
Proof.
  assert (Hn : ~ In 4 (ids (plans initialState)))
    by (simpl; intros [H|[H|[H|[]]]]; discriminate H).
  split; [exact Hn|].
  exact (handleDeletePlan_absent initialState true 4 Hn).
Defined.

(** C9, as the code behaves.  With a session open [handleSavePlan]
    never throws.  With no session open it throws a [TypeError] when the
    registry holds at least one plan, and when the registry is empty the
    callback of [map] never runs: it returns normally and the state is
    unchanged. *)
Theorem handleSavePlan_completion (st : State) :
  match editingPlan st, plans st with
  | Some _, _ => exists st', handleSavePlan st = Normal st'
  | None, _ :: _ => handleSavePlan st = Throw TypeError
  | None, [] => handleSavePlan st = Normal st
  end.
Proof.
  destruct (editingPlan st) as [e|] eqn:He.
  - eexists; apply (handleSavePlan_open st e He).
  - destruct (plans st) as [|p t] eqn:Hp.
    + apply (handleSavePlan_empty st He Hp).
    + apply (handleSavePlan_null st p t He Hp).
Qed.

(** C9 fails as stated: with no session open and an empty registry
    [handleSavePlan] throws nothing and returns the state it was given. *)
Lemma handleSavePlan_null_counterexample :
  editingPlan emptyState = None /\
  handleSavePlan emptyState = Normal emptyState.
Proof. split; reflexivity. Qed.

(** C10.  [handleTogglePlan] leaves the edit session and [showAddPlan]
    unchanged; the registry keeps its length, its order and its ids;
    position by position the new plan differs from the old one in
    [isActive] at most, and is the old one when its id is not the id
    passed. *)
Theorem handleTogglePlan_frame (st : State) (planId : Z) :
  editingPlan (handleTogglePlan planId st) = editingPlan st /\
  showAddPlan (handleTogglePlan planId st) = showAddPlan st /\
  ids (plans (handleTogglePlan planId st)) = ids (plans st) /\
  Forall2 (fun plan plan' =>
             same_but_isActive plan plan' /\
             (id plan <> planId -> plan' = plan))
          (plans st) (plans (handleTogglePlan planId st)).
Proof.
  split; [reflexivity|].
  split; [reflexivity|].
  split; [apply (ids_map_toggled planId)|].
  apply (Forall2_map_self _ (toggled planId)); intros plan; split.
  - apply toggled_same_but_isActive.
  - apply toggled_other.
Qed.

(** * Further properties of the handlers *)

(** ** Lists *)

Lemma filter_from_app {A : Type} (f : A -> Z -> bool) (k : Z) (l1 l2 : list A) :
  filter_from f k (l1 ++ l2)
  = filter_from f k l1 ++ filter_from f (k + Z.of_nat (List.length l1)) l2.
Proof.
  revert k; induction l1 as [|x t IH]; intros k; simpl.
  - now rewrite Z.add_0_r.
  - rewrite IH.
    replace (k + 1 + Z.of_nat (List.length t))
      with (k + Z.pos (Pos.of_succ_nat (List.length t))) by lia.
    now destruct (f x k).
Qed.

Lemma nth_error_remove {A : Type} (l : list A) (n k : nat) :
  (n < List.length l)%nat ->
  nth_error (firstn n l ++ skipn (S n) l) k
  = if (k <? n)%nat then nth_error l k else nth_error l (S k).
Proof.
  intros Hn.
  assert (Hlen : List.length (firstn n l) = n)
    by (rewrite firstn_length_le; lia).
  destruct (Nat.ltb_spec k n) as [Hk|Hk].
  - rewrite nth_error_app1 by lia. rewrite nth_error_firstn.
    destruct (Nat.ltb_spec k n); [reflexivity|lia].
  - rewrite nth_error_app2 by lia. rewrite Hlen, nth_error_skipn.
    f_equal; lia.
Qed.

(** Plans of a registry with distinct ids are determined by their id. *)
Lemma ids_distinct_eq (ps : list Plan) (p q : Plan) :
  NoDup (ids ps) -> In p ps -> In q ps -> id p = id q -> p = q.
Proof.
  induction ps as [|x t IH]; simpl; intros Hnd Hp Hq Hid; [contradiction|].
  inversion Hnd as [|? ? Hx Ht]; subst.
  destruct Hp as [->|Hp], Hq as [->|Hq]; auto.
  - exfalso; apply Hx; rewrite Hid; now apply in_map.
  - exfalso; apply Hx; rewrite <- Hid; now apply in_map.
Qed.

(** Saving an unchanged plan of a registry with distinct ids changes
    nothing. *)
Lemma map_saved_self (ps : list Plan) (plan : Plan) :
  NoDup (ids ps) -> In plan ps -> map (saved plan) ps = ps.
Proof.
  intros Hnd Hin; rewrite <- (map_id ps) at 2.
  apply map_ext_in; intros p Hp; unfold saved.
  destruct (Z.eqb_spec (id p) (id plan)) as [Heq|]; [|reflexivity].
  symmetry; now apply (ids_distinct_eq ps).
Qed.

Lemma saved_toggled (plan p : Plan) :
  saved plan (toggled (id plan) p) = saved plan p.
Proof.
  unfold saved; rewrite toggled_id.
  destruct (Z.eqb_spec (id p) (id plan)) as [Heq|Hne]; [reflexivity|].
  now apply toggled_other.
Qed.

(** With distinct ids, exactly one plan carries an id of the registry. *)
Lemma filter_id_length (ps : list Plan) (planId : Z) :
  NoDup (ids ps) -> In planId (ids ps) ->
  S (List.length (filter (fun plan => negb (id plan =? planId)) ps))
  = List.length ps.
Proof.
  induction ps as [|x t IH]; simpl; intros Hnd Hin; [contradiction|].
  inversion Hnd as [|? ? Hx Ht]; subst.
  destruct (Z.eqb_spec (id x) planId) as [Heq|Hne]; simpl.
  - f_equal; subst planId. now apply (f_equal (@List.length Plan)), filter_absent.
  - f_equal; apply IH; [assumption|]. destruct Hin; [contradiction|assumption].
Qed.

Lemma filter_id_comm (a b : Z) (ps : list Plan) :
  filter (fun plan => negb (id plan =? a))
         (filter (fun plan => negb (id plan =? b)) ps)
  = filter (fun plan => negb (id plan =? b))
           (filter (fun plan => negb (id plan =? a)) ps).
Proof.
  induction ps as [|x t IH]; simpl; [reflexivity|].
  destruct (id x =? a) eqn:Ha, (id x =? b) eqn:Hb; simpl;
    rewrite ?Ha, ?Hb; simpl; now rewrite IH.
Qed.

Lemma filter_id_idem (a : Z) (ps : list Plan) :
  filter (fun plan => negb (id plan =? a))
         (filter (fun plan => negb (id plan =? a)) ps)
  = filter (fun plan => negb (id plan =? a)) ps.
Proof.
  induction ps as [|x t IH]; simpl; [reflexivity|].
  destruct (id x =? a) eqn:Ha; simpl; rewrite ?Ha; simpl; now rewrite IH.
Qed.

Lemma filter_map_toggled (a b : Z) (ps : list Plan) :
  filter (fun plan => negb (id plan =? a)) (map (toggled b) ps)
  = map (toggled b) (filter (fun plan => negb (id plan =? a)) ps).
Proof.
  induction ps as [|x t IH]; simpl; [reflexivity|].
  rewrite toggled_id; destruct (id x =? a); simpl; now rewrite IH.
Qed.

Lemma toggled_comm (a b : Z) (plan : Plan) :
  toggled a (toggled b plan) = toggled b (toggled a plan).
Proof.
  unfold toggled at 2 4.
  destruct (id plan =? b) eqn:Hb, (id plan =? a) eqn:Ha;
    unfold toggled; simpl; rewrite ?Ha, ?Hb; reflexivity.
Qed.

(** ** Feature list of the working copy *)

Lemma features_with_features (fs : list string) (plan : Plan) :
  features (with_features fs plan) = fs.
Proof. reflexivity. Qed.

(** X1.  With a session open on [e], [addFeature] on the id of [e] puts
    the new feature last in the working copy, and [removeFeature] at the
    index of that last feature gives back the state before [addFeature]. *)
Theorem addFeature_removeFeature (st : State) (e : Plan) (feature : string) :
  editingPlan st = Some e ->
  editingPlan (addFeature (id e) feature st)
  = Some (with_features (features e ++ [feature]) e) /\
  removeFeature (id e) (Z.of_nat (List.length (features e)))
                (addFeature (id e) feature st)
  = st.
Proof.
  intros He.
  assert (Hadd : addFeature (id e) feature st
                 = setEditingPlan
                     (Some (with_features (features e ++ [feature]) e)) st).
  { unfold addFeature; now rewrite He, Z.eqb_refl. }
  rewrite Hadd; split; [reflexivity|].
  unfold removeFeature; simpl; rewrite Z.eqb_refl.
  unfold array_filter; rewrite filter_from_app.
  rewrite filter_from_out_of_range by lia.
  simpl; rewrite Z.eqb_refl; simpl; rewrite app_nil_r.
  destruct st as [ps s b], e; simpl in *; subst; reflexivity.
Qed.

Lemma addFeature_removeFeature_witness :
  editingPlan sessionAB = Some copyAB /\
  editingPlan (addFeature (id copyAB) "C" sessionAB)
  = Some (with_features (features copyAB ++ ["C"]) copyAB) /\
  removeFeature (id copyAB) (Z.of_nat (List.length (features copyAB)))
                (addFeature (id copyAB) "C" sessionAB)
  = sessionAB.
Proof.
  split; [reflexivity|].
  exact (addFeature_removeFeature sessionAB copyAB "C" eq_refl).
Defined.

(** X2.  With a session open on [e] and [0 <= i < n], where [n] is the
    number of features of [e], [removeFeature] on the id of [e] changes
    the feature list of the working copy only: it leaves the registry and
    the other fields of the working copy as they are, the list has one
    feature less, the features before index [i] keep their index and the
    features after it move down by one. *)
Theorem removeFeature_removes_one (st : State) (e : Plan) (i : Z) :
  editingPlan st = Some e ->
  0 <= i < Z.of_nat (List.length (features e)) ->
  exists e',
    editingPlan (removeFeature (id e) i st) = Some e' /\
    plans (removeFeature (id e) i st) = plans st /\
    with_features (features e) e' = e /\
    S (List.length (features e')) = List.length (features e) /\
    forall k,
      nth_error (features e') k
      = if Z.of_nat k <? i
        then nth_error (features e) k
        else nth_error (features e) (S k).
Proof.
  intros He Hi; eexists; split; [apply (removeFeature_in_range st e i He Hi)|].
  split; [unfold removeFeature; rewrite He, Z.eqb_refl; reflexivity|].
  split; [now destruct e|].
  rewrite features_with_features; split.
  - rewrite length_app, firstn_length_le, length_skipn by lia. lia.
  - intros k; rewrite nth_error_remove by lia.
    destruct (Nat.ltb_spec k (Z.to_nat i)), (Z.ltb_spec (Z.of_nat k) i);
      try reflexivity; lia.
Qed.

Lemma removeFeature_removes_one_witness :
  editingPlan sessionAB = Some copyAB /\
  0 <= 0 < Z.of_nat (List.length (features copyAB)) /\
  exists e',
    editingPlan (removeFeature (id copyAB) 0 sessionAB) = Some e' /\
    plans (removeFeature (id copyAB) 0 sessionAB) = plans sessionAB /\
    with_features (features copyAB) e' = copyAB /\
    S (List.length (features e')) = List.length (features copyAB) /\
    forall k,
      nth_error (features e') k
      = if Z.of_nat k <? 0
        then nth_error (features copyAB) k
        else nth_error (features copyAB) (S k).
Proof.
  assert (Hi : 0 <= 0 < Z.of_nat (List.length (features copyAB)))
    by (simpl; lia).
  split; [reflexivity|].
  split; [exact Hi|].
  exact (removeFeature_removes_one sessionAB copyAB 0 eq_refl Hi).
Defined.

(** ** Deleting and toggling *)

(** X3.  In a registry with distinct ids, a confirmed [handleDeletePlan]
    of an id of the registry removes the plan of that id and nothing
    else: the id is gone, the number of plans drops by one, every plan
    with another id is in the registry afterwards exactly when it was
    before, and the edit session is left as it is. *)
Theorem handleDeletePlan_removes (st : State) (planId : Z) :
  NoDup (ids (plans st)) ->
  In planId (ids (plans st)) ->
  ~ In planId (ids (plans (handleDeletePlan true planId st))) /\
  totalPlans (handleDeletePlan true planId st) = totalPlans st - 1 /\
  (forall plan,
      id plan <> planId ->
      In plan (plans (handleDeletePlan true planId st)) <-> In plan (plans st)) /\
  editingPlan (handleDeletePlan true planId st) = editingPlan st.
Proof.
  intros Hnd Hin; simpl; split; [|split; [|split; [|reflexivity]]].
  - rewrite ids_filter; intros Hf; apply filter_In in Hf as [_ Hf].
    now rewrite Z.eqb_refl in Hf.
  - unfold totalPlans; simpl.
    rewrite <- (filter_id_length (plans st) planId Hnd Hin); lia.
  - intros plan Hne; rewrite filter_In; split; [tauto|].
    intros Hp; split; [assumption|].
    now apply negb_true_iff, Z.eqb_neq.
Qed.

Lemma handleDeletePlan_removes_witness :
  NoDup (ids (plans initialState)) /\
  In 2 (ids (plans initialState)) /\
  ~ In 2 (ids (plans (handleDeletePlan true 2 initialState))) /\
  totalPlans (handleDeletePlan true 2 initialState)
  = totalPlans initialState - 1 /\
  (forall plan,
      id plan <> 2 ->
      In plan (plans (handleDeletePlan true 2 initialState))
      <-> In plan (plans initialState)) /\
  editingPlan (handleDeletePlan true 2 initialState)
  = editingPlan initialState.
Proof.
  assert (Hin : In 2 (ids (plans initialState)))
    by (simpl; right; left; reflexivity).
  split; [exact initialPlans_distinct|].
  split; [exact Hin|].
  exact (handleDeletePlan_removes initialState 2 initialPlans_distinct Hin).
Defined.

(** X4.  Deleting is idempotent, and deletions and toggles commute:
    two deletions, two toggles, or a deletion and a toggle, give the same
    state in either order, whatever the ids. *)
Theorem registry_operations_commute (st : State) (a b : Z) (c d : bool) :
  handleDeletePlan c a (handleDeletePlan c a st) = handleDeletePlan c a st /\
  handleDeletePlan c a (handleDeletePlan d b st)
  = handleDeletePlan d b (handleDeletePlan c a st) /\
  handleTogglePlan a (handleTogglePlan b st)
  = handleTogglePlan b (handleTogglePlan a st) /\
  handleDeletePlan c a (handleTogglePlan b st)
  = handleTogglePlan b (handleDeletePlan c a st).
Proof.
  destruct st as [ps e s]; repeat split.
  - destruct c; unfold handleDeletePlan, setPlans; simpl; [|reflexivity].
    now rewrite filter_id_idem.
  - destruct c, d; unfold handleDeletePlan, setPlans; simpl; try reflexivity.
    now rewrite filter_id_comm.
  - unfold handleTogglePlan, setPlans; simpl; f_equal.
    rewrite !map_map; apply map_ext; intros plan.
    apply (toggled_comm a b).
  - destruct c; unfold handleDeletePlan, handleTogglePlan, setPlans; simpl;
      [|reflexivity].
    f_equal; apply (filter_map_toggled a b).
Qed.

(** ** Saving *)

(** X5.  In a registry with distinct ids, opening the edit session on a
    plan of the registry and saving at once leaves the registry as it
    was, with no session open. *)
Theorem handleEditPlan_handleSavePlan (st : State) (plan : Plan) :
  NoDup (ids (plans st)) ->
  In plan (plans st) ->
  handleSavePlan (handleEditPlan plan st) = Normal (handleCancelEdit st).
Proof.
  intros Hnd Hin.
  rewrite (handleSavePlan_open _ plan)
    by (unfold handleEditPlan; now rewrite spread_eq).
  simpl; now rewrite map_saved_self.
Qed.

Lemma handleEditPlan_handleSavePlan_witness :
  NoDup (ids (plans initialState)) /\
  In diamondPlan (plans initialState) /\
  handleSavePlan (handleEditPlan diamondPlan initialState)
  = Normal (handleCancelEdit initialState).
Proof.
  assert (Hin : In diamondPlan (plans initialState))
    by (simpl; right; right; left; reflexivity).
  split; [exact initialPlans_distinct|].
  split; [exact Hin|].
  exact (handleEditPlan_handleSavePlan initialState diamondPlan
           initialPlans_distinct Hin).
Defined.

(** X6.  A toggle made while the edit session of that plan is open is
    lost on save: in a registry with distinct ids, [handleEditPlan] on a
    plan of the registry, then [handleTogglePlan] on its id, then
    [handleSavePlan], end in the registry as it was before the three
    calls, although the toggle had flipped the flag in between. *)
Theorem toggle_during_edit_is_lost (st : State) (plan : Plan) :
  NoDup (ids (plans st)) ->
  In plan (plans st) ->
  In (with_isActive (negb (isActive plan)) plan)
     (plans (handleTogglePlan (id plan) (handleEditPlan plan st))) /\
  handleSavePlan (handleTogglePlan (id plan) (handleEditPlan plan st))
  = Normal (handleCancelEdit st).
Proof.
  intros Hnd Hin; split.
  - now apply handleTogglePlan_flips.
  - rewrite (handleSavePlan_open _ plan)
      by (unfold handleEditPlan; now rewrite spread_eq).
    simpl; rewrite map_map.
    rewrite (map_ext _ (saved plan)) by (intros p; apply (saved_toggled plan p)).
    now rewrite map_saved_self.
Qed.

Lemma toggle_during_edit_is_lost_witness :
  NoDup (ids (plans initialState)) /\
  In basicPlan (plans initialState) /\
  In (with_isActive (negb (isActive basicPlan)) basicPlan)
     (plans (handleTogglePlan (id basicPlan)
               (handleEditPlan basicPlan initialState))) /\
  handleSavePlan (handleTogglePlan (id basicPlan)
                    (handleEditPlan basicPlan initialState))
  = Normal (handleCancelEdit initialState).
Proof.
  assert (Hin : In basicPlan (plans initialState))
    by (simpl; left; reflexivity).
  split; [exact initialPlans_distinct|].
  split; [exact Hin|].
  exact (toggle_during_edit_is_lost initialState basicPlan
           initialPlans_distinct Hin).
Defined.

(** ** Sequences of handler calls *)

Lemma step_sessionOnly (st : State) (a : Action) :
  sessionOnly a = true ->
  plans (step st a) = plans st /\ showAddPlan (step st a) = showAddPlan st.
Proof.
  destruct a as [plan| | |c planId|planId|planId f|planId i]; simpl;
    try discriminate; intros _; unfold step; simpl; auto.
  - unfold addFeature; destruct (editingPlan st) as [e|]; auto.
    destruct (id e =? planId); auto.
  - unfold removeFeature; destruct (editingPlan st) as [e|]; auto.
    destruct (id e =? planId); auto.
Qed.

(** X7.  Calls of [handleEditPlan], [handleCancelEdit], [addFeature] and
    [removeFeature], in any number and order and with any arguments,
    never write the registry; a [handleCancelEdit] after them gives the
    state that [handleCancelEdit] gives before them. *)
Theorem session_calls_keep_registry (st : State) (actions : list Action) :
  forallb sessionOnly actions = true ->
  plans (run st actions) = plans st /\
  handleCancelEdit (run st actions) = handleCancelEdit st.
Proof.
  revert st; induction actions as [|a rest IH]; intros st Hall; simpl.
  - auto.
  - simpl in Hall; apply andb_true_iff in Hall as [Ha Hrest].
    destruct (step_sessionOnly st a Ha) as [Hp Hs].
    destruct (IH (step st a) Hrest) as [Hp' Hc'].
    split; [congruence|].
    rewrite Hc'; unfold handleCancelEdit, setEditingPlan; congruence.
Qed.

Lemma session_calls_keep_registry_witness :
  forallb sessionOnly
    [EditPlan basicPlan; AddFeature 1 "C"; RemoveFeature 1 0;
     EditPlan diamondPlan]
  = true /\
  plans (run initialState
           [EditPlan basicPlan; AddFeature 1 "C"; RemoveFeature 1 0;
            EditPlan diamondPlan])
  = plans initialState /\
  handleCancelEdit
    (run initialState
       [EditPlan basicPlan; AddFeature 1 "C"; RemoveFeature 1 0;
        EditPlan diamondPlan])
  = handleCancelEdit initialState.
Proof.
  split; [reflexivity|].
  exact (session_calls_keep_registry initialState
           [EditPlan basicPlan; AddFeature 1 "C"; RemoveFeature 1 0;
            EditPlan diamondPlan] eq_refl).
Defined.

Lemma filter_filter_and {A : Type} (f g : A -> bool) (l : list A) :
  filter f (filter g l) = filter (fun x => g x && f x) l.
Proof.
  induction l as [|x t IH]; simpl; [reflexivity|].
  destruct (g x); simpl; [destruct (f x)|]; now rewrite IH.
Qed.

Lemma filter_all {A : Type} (l : list A) : filter (fun _ => true) l = l.
Proof. induction l; simpl; congruence. Qed.

(** X8.  No sequence of handler calls adds a plan or reorders the
    registry: the ids after the calls are the ids before them with some
    ids filtered out, so the number of plans never grows. *)
Theorem run_only_removes (st : State) (actions : list Action) :
  (exists keep : Z -> bool,
      ids (plans (run st actions)) = filter keep (ids (plans st))) /\
  totalPlans (run st actions) <= totalPlans st.
Proof.
  assert (H : exists keep : Z -> bool,
             ids (plans (run st actions)) = filter keep (ids (plans st))).
  { revert st; induction actions as [|a rest IH]; intros st; simpl.
    - exists (fun _ => true); now rewrite filter_all.
    - destruct (IH (step st a)) as [keep Hk]; rewrite Hk.
      destruct (step_ids st a) as [Heq|[planId Heq]]; rewrite Heq.
      + now exists keep.
      + rewrite filter_filter_and; eauto. }
  split; [exact H|].
  destruct H as [keep Hk]; unfold totalPlans.
  apply (f_equal (@List.length Z)) in Hk; unfold ids in Hk.
  rewrite !length_map in Hk.
  pose proof (filter_length_le keep (map id (plans st))) as Hle.
  rewrite length_map in Hle; lia.
Qed.

(** ** Statistics *)

Lemma fold_subscribers_shift (ps : list Plan) (a : Z) :
  fold_left (fun sum plan => sum + subscribers plan) ps a
  = a + fold_left (fun sum plan => sum + subscribers plan) ps 0.
Proof.
  revert a; induction ps as [|p t IH]; intros a; simpl; [lia|].
  rewrite (IH (a + subscribers p)), (IH (subscribers p)); lia.
Qed.

Lemma fold_subscribers_map (f : Plan -> Plan) (ps : list Plan) (a : Z) :
  (forall p, subscribers (f p) = subscribers p) ->
  fold_left (fun sum plan => sum + subscribers plan) (map f ps) a
  = fold_left (fun sum plan => sum + subscribers plan) ps a.
Proof.
  intros Hf; revert a; induction ps as [|p t IH]; intros a; simpl;
    [reflexivity|].
  now rewrite Hf, IH.
Qed.

Lemma map_toggled_absent (planId : Z) (ps : list Plan) :
  ~ In planId (ids ps) -> map (toggled planId) ps = ps.
Proof.
  intros Hn; rewrite <- (map_id ps) at 2; apply map_ext_in; intros p Hp.
  apply toggled_other; intros Heq; apply Hn; subst; now apply in_map.
Qed.

Lemma toggled_subscribers (planId : Z) (p : Plan) :
  subscribers (toggled planId p) = subscribers p.
Proof. unfold toggled; now destruct (id p =? planId). Qed.

Lemma active_count_toggled (ps : list Plan) (plan : Plan) :
  NoDup (ids ps) -> In plan ps ->
  Z.of_nat (List.length (filter (fun p => isActive p)
                                (map (toggled (id plan)) ps)))
  = Z.of_nat (List.length (filter (fun p => isActive p) ps))
    + (if isActive plan then -1 else 1).
Proof.
  induction ps as [|x t IH]; intros Hnd Hin; [contradiction|].
  inversion Hnd as [|? ? Hx Ht]; subst.
  cbn [map filter]; destruct Hin as [->|Hin].
  - rewrite (map_toggled_absent (id plan) t Hx).
    unfold toggled; rewrite Z.eqb_refl.
    destruct plan as [i n d m y f a [|] s ic c]; cbn [isActive with_isActive negb];
      cbn [List.length]; rewrite ?Nat2Z.inj_succ; lia.
  - assert (Hne : id x <> id plan)
      by (intros Heq; apply Hx; rewrite Heq; now apply in_map).
    rewrite (toggled_other _ _ Hne).
    specialize (IH Ht Hin).
    destruct (isActive x); cbn [List.length]; rewrite ?Nat2Z.inj_succ; lia.
Qed.

(** X9.  In a registry with distinct ids, [handleTogglePlan] on the id
    of a plan of the registry moves the number of active plans by exactly
    one, down when the plan was active and up when it was not, and leaves
    the number of plans and the total of subscribers as they were. *)
Theorem handleTogglePlan_statistics (st : State) (plan : Plan) :
  NoDup (ids (plans st)) ->
  In plan (plans st) ->
  activePlans (handleTogglePlan (id plan) st)
  = activePlans st + (if isActive plan then -1 else 1) /\
  totalPlans (handleTogglePlan (id plan) st) = totalPlans st /\
  totalSubscribers (handleTogglePlan (id plan) st) = totalSubscribers st.
Proof.
  intros Hnd Hin; unfold activePlans, totalPlans, totalSubscribers; simpl.
  split; [apply (active_count_toggled _ _ Hnd Hin)|].
  split; [now rewrite length_map|].
  apply (fold_subscribers_map (toggled (id plan))).
  apply toggled_subscribers.
Qed.

Lemma handleTogglePlan_statistics_witness :
  NoDup (ids (plans initialState)) /\
  In professionalPlan (plans initialState) /\
  activePlans (handleTogglePlan (id professionalPlan) initialState)
  = activePlans initialState + (if isActive professionalPlan then -1 else 1) /\
  totalPlans (handleTogglePlan (id professionalPlan) initialState)
  = totalPlans initialState /\
  totalSubscribers (handleTogglePlan (id professionalPlan) initialState)
  = totalSubscribers initialState.
Proof.
  assert (Hin : In professionalPlan (plans initialState))
    by (simpl; right; left; reflexivity).
  split; [exact initialPlans_distinct|].
  split; [exact Hin|].
  exact (handleTogglePlan_statistics initialState professionalPlan
           initialPlans_distinct Hin).
Defined.

Lemma statistics_filter (ps : list Plan) (plan : Plan) :
  NoDup (ids ps) -> In plan ps ->
  fold_left (fun sum p => sum + subscribers p)
            (filter (fun p => negb (id p =? id plan)) ps) 0
  = fold_left (fun sum p => sum + subscribers p) ps 0 - subscribers plan /\
  Z.of_nat (List.length
              (filter (fun p => isActive p)
                      (filter (fun p => negb (id p =? id plan)) ps)))
  = Z.of_nat (List.length (filter (fun p => isActive p) ps))
    - (if isActive plan then 1 else 0).
Proof.
  induction ps as [|x t IH]; intros Hnd Hin; [contradiction|].
  inversion Hnd as [|? ? Hx Ht]; subst.
  cbn [filter fold_left]; rewrite Z.add_0_l.
  rewrite (fold_subscribers_shift t (subscribers x)).
  destruct Hin as [->|Hin].
  - rewrite Z.eqb_refl; cbn [negb].
    rewrite (filter_absent (id plan) t Hx).
    destruct (isActive plan); cbn [List.length]; rewrite ?Nat2Z.inj_succ; lia.
  - assert (Hne : id x <> id plan)
      by (intros Heq; apply Hx; rewrite Heq; now apply in_map).
    apply Z.eqb_neq in Hne; rewrite Hne; cbn [negb filter fold_left].
    rewrite Z.add_0_l, (fold_subscribers_shift _ (subscribers x)).
    destruct (IH Ht Hin) as [Hs Ha]; rewrite Hs.
    destruct (isActive x); cbn [List.length]; rewrite ?Nat2Z.inj_succ; lia.
Qed.

Lemma fold_subscribers_nonneg (ps : list Plan) :
  Forall (fun p => 0 <= subscribers p) ps ->
  0 <= fold_left (fun sum p => sum + subscribers p) ps 0.
Proof.
  induction 1 as [|p t Hp _ IH]; cbn [fold_left]; [lia|].
  rewrite Z.add_0_l, (fold_subscribers_shift t (subscribers p)); lia.
Qed.

(** X10.  In a registry with distinct ids whose subscribers are
    non-negative and add up to at most [2 ^ 53] (so that the page's sum
    in doubles is the exact one), a confirmed [handleDeletePlan] on the
    id of a plan of the registry lowers the total of subscribers by the
    subscribers of that plan, the new total staying between 0 and
    [2 ^ 53], and lowers the number of active plans by one exactly when
    that plan was active. *)
Theorem handleDeletePlan_statistics (st : State) (plan : Plan) :
  NoDup (ids (plans st)) ->
  In plan (plans st) ->
  Forall (fun p => 0 <= subscribers p) (plans st) ->
  totalSubscribers st <= 2 ^ 53 ->
  totalSubscribers (handleDeletePlan true (id plan) st)
  = totalSubscribers st - subscribers plan /\
  0 <= totalSubscribers (handleDeletePlan true (id plan) st) <= 2 ^ 53 /\
  activePlans (handleDeletePlan true (id plan) st)
  = activePlans st - (if isActive plan then 1 else 0).
Proof.
  intros Hnd Hin Hpos Hmax.
  destruct (statistics_filter _ _ Hnd Hin) as [Hsum Hact].
  assert (Hplan : 0 <= subscribers plan)
    by (apply (proj1 (Forall_forall _ _) Hpos plan Hin)).
  assert (Hrest : 0 <= totalSubscribers (handleDeletePlan true (id plan) st)).
  { unfold totalSubscribers; simpl; apply fold_subscribers_nonneg.
    apply Forall_forall; intros p Hp; apply filter_In in Hp as [Hp _].
    apply (proj1 (Forall_forall _ _) Hpos p Hp). }
  unfold activePlans, totalSubscribers in *; simpl in *.
  split; [exact Hsum|]; split; [|exact Hact].
  split; [exact Hrest|]; rewrite Hsum; lia.
Qed.

Lemma handleDeletePlan_statistics_witness :
  NoDup (ids (plans initialState)) /\
  In diamondPlan (plans initialState) /\
  Forall (fun p => 0 <= subscribers p) (plans initialState) /\
  totalSubscribers initialState <= 2 ^ 53 /\
  totalSubscribers (handleDeletePlan true (id diamondPlan) initialState)
  = totalSubscribers initialState - subscribers diamondPlan /\
  0 <= totalSubscribers (handleDeletePlan true (id diamondPlan) initialState)
  <= 2 ^ 53 /\
  activePlans (handleDeletePlan true (id diamondPlan) initialState)
  = activePlans initialState - (if isActive diamondPlan then 1 else 0).
Proof.
  assert (Hin : In diamondPlan (plans initialState))
    by (simpl; right; right; left; reflexivity).
  assert (Hpos : Forall (fun p => 0 <= subscribers p) (plans initialState))
    by (repeat constructor; simpl; lia).
  assert (Hmax : totalSubscribers initialState <= 2 ^ 53)
    by (vm_compute; intros H; discriminate H).
  split; [exact initialPlans_distinct|].
  split; [exact Hin|].
  split; [exact Hpos|].
  split; [exact Hmax|].
  exact (handleDeletePlan_statistics initialState diamondPlan
           initialPlans_distinct Hin Hpos Hmax).
Defined.

(** * The rendered page *)

Lemma isEditing_true (st : State) (plan : Plan) :
  isEditing st plan = true ->
  exists e, editingPlan st = Some e /\ id e = id plan.
Proof.
  unfold isEditing; destruct (editingPlan st) as [e|]; [|discriminate].
  intros H; apply Z.eqb_eq in H; eauto.
Qed.

Lemma isEditing_false (st : State) (plan e : Plan) :
  isEditing st plan = false -> editingPlan st = Some e -> id e <> id plan.
Proof.
  unfold isEditing; intros H He; rewrite He in H; now apply Z.eqb_neq.
Qed.

Lemma currentPlan_editing (st : State) (plan e : Plan) :
  editingPlan st = Some e -> id e = id plan -> currentPlan st plan = e.
Proof.
  intros He Hid; unfold currentPlan; rewrite He, Hid.
  now rewrite Z.eqb_refl.
Qed.

Lemma in_indices {A : Type} (l : list A) (index : Z) :
  In index (indices l) <-> 0 <= index < Z.of_nat (List.length l).
Proof.
  unfold indices; rewrite in_map_iff; split.
  - intros [n [<- Hn]]; apply in_seq in Hn; lia.
  - intros Hi; exists (Z.to_nat index); split; [lia|].
    apply in_seq; lia.
Qed.

(** What the card of [plan] wires each handler call to. *)
Lemma cardActions_in (st : State) (plan : Plan) (a : Action) :
  In a (cardActions st plan) ->
  match a with
  | TogglePlan planId => planId = id plan
  | EditPlan p => p = plan /\ isEditing st plan = false
  | RemoveFeature planId index =>
      planId = id plan /\ isEditing st plan = true /\
      In index (indices (features (currentPlan st plan)))
  | AddFeature planId _ => planId = id plan /\ isEditing st plan = true
  | SavePlan | CancelEdit => isEditing st plan = true
  | DeletePlan _ planId => planId = id plan /\ isEditing st plan = false
  end.
Proof.
  intros Hin; unfold cardActions in Hin.
  destruct (isEditing st plan) eqn:Hed; simpl in Hin.
  - destruct Hin as [<-|Hin]; [reflexivity|].
    apply in_app_or in Hin as [Hin|Hin].
    + apply in_map_iff in Hin as [index [<- Hi]]; auto.
    + simpl in Hin; destruct Hin as [<-|[<-|[<-|[]]]]; auto.
  - destruct Hin as [<-|[<-|[<-|[<-|[]]]]]; auto.
Qed.

Lemma offered_in (st : State) (a : Action) :
  In a (offered st) <->
  exists plan, In plan (plans st) /\ In a (cardActions st plan).
Proof. unfold offered; apply in_flat_map. Qed.

(** X11.  Every call of a named handler that the rendered page offers
    returns normally: [handleSavePlan], the one handler that can throw,
    is wired to the save button, which exists on cards in edit mode
    only, and then [editingPlan] is not [null]. *)
Theorem offered_never_throws (st : State) (a : Action) :
  In a (offered st) ->
  exists st', dispatch a st = Normal st'.
Proof.
  intros Hin; apply offered_in in Hin as [plan [_ Hin]].
  apply cardActions_in in Hin.
  destruct a; simpl; eauto.
  apply isEditing_true in Hin as [e [He _]].
  eexists; apply (handleSavePlan_open st e He).
Qed.

Lemma offered_never_throws_witness :
  In SavePlan (offered sessionAB) /\
  exists st', dispatch SavePlan sessionAB = Normal st'.
Proof.
  assert (Hin : In SavePlan (offered sessionAB))
    by (simpl; do 4 right; left; reflexivity).
  split; [exact Hin|].
  exact (offered_never_throws sessionAB SavePlan Hin).
Defined.

(** X12.  The arguments the rendered page passes to the handlers: a
    remove button passes the id of the working copy and the index of one
    of its features; the add-feature button passes the id of the working
    copy; the edit button passes a plan of the registry that is not the
    one under edit; the delete button passes the id of a plan of the
    registry that is not the one under edit; save is offered exactly
    when the card of some plan of the registry is in edit mode. *)
Theorem offered_arguments (st : State) :
  (forall planId index,
      In (RemoveFeature planId index) (offered st) ->
      exists e, editingPlan st = Some e /\ id e = planId /\
                0 <= index < Z.of_nat (List.length (features e))) /\
  (forall planId feature,
      In (AddFeature planId feature) (offered st) ->
      exists e, editingPlan st = Some e /\ id e = planId) /\
  (forall plan,
      In (EditPlan plan) (offered st) ->
      In plan (plans st) /\ isEditing st plan = false) /\
  (forall confirmed planId,
      In (DeletePlan confirmed planId) (offered st) ->
      In planId (ids (plans st)) /\
      forall e, editingPlan st = Some e -> id e <> planId) /\
  (In SavePlan (offered st) <->
   exists plan, In plan (plans st) /\ isEditing st plan = true).
Proof.
  split; [|split; [|split; [|split]]].
  - intros planId index Hin; apply offered_in in Hin as [plan [_ Hin]].
    apply cardActions_in in Hin as [-> [Hed Hi]].
    destruct (isEditing_true st plan Hed) as [e [He Hid]].
    rewrite (currentPlan_editing st plan e He Hid) in Hi.
    apply in_indices in Hi; eauto.
  - intros planId feature Hin; apply offered_in in Hin as [plan [_ Hin]].
    apply cardActions_in in Hin as [-> Hed].
    apply (isEditing_true st plan Hed).
  - intros plan Hin; apply offered_in in Hin as [p [Hp Hin]].
    apply cardActions_in in Hin as [-> Hed]; auto.
  - intros confirmed planId Hin; apply offered_in in Hin as [plan [Hp Hin]].
    apply cardActions_in in Hin as [-> Hed]; split.
    + now apply in_map.
    + intros e He; apply (isEditing_false st plan e Hed He).
  - split.
    + intros Hin; apply offered_in in Hin as [plan [Hp Hin]].
      apply cardActions_in in Hin; eauto.
    + intros [plan [Hp Hed]]; apply offered_in; exists plan; split; [exact Hp|].
      unfold cardActions; rewrite Hed; simpl; right.
      apply in_or_app; right; simpl; auto.
Qed.

Lemma editing_cards (ps : list Plan) (i : Z) :
  NoDup (ids ps) ->
  (~ In i (ids ps) /\ filter (fun plan => i =? id plan) ps = []) \/
  (exists plan, In plan ps /\ id plan = i /\
                filter (fun p => i =? id p) ps = [plan]).
Proof.
  induction ps as [|x t IH]; intros Hnd; [left; simpl; auto|].
  inversion Hnd as [|? ? Hx Ht]; subst; cbn [filter].
  destruct (Z.eqb_spec i (id x)) as [->|Hne].
  - right; exists x; split; [now left|]; split; [reflexivity|].
    destruct (IH Ht) as [[_ Hnil]|[p [Hp [Hid _]]]].
    + now rewrite Hnil.
    + exfalso; apply Hx; rewrite <- Hid; now apply in_map.
  - destruct (IH Ht) as [[Hn Hnil]|[p [Hp [Hid Hf]]]].
    + left; split; [|assumption].
      simpl; intros [Heq|Hin]; [now apply Hne|now apply Hn].
    + right; exists p; split; [now right|]; auto.
Qed.

(** X13.  In a registry with distinct ids at most one card is in edit
    mode: none when no session is open or when no plan carries the id of
    the working copy, and otherwise exactly the card of the plan with
    that id. *)
Theorem one_card_in_edit_mode (st : State) :
  NoDup (ids (plans st)) ->
  match editingPlan st with
  | None => filter (isEditing st) (plans st) = []
  | Some e =>
      (~ In (id e) (ids (plans st)) /\ filter (isEditing st) (plans st) = []) \/
      (exists plan, In plan (plans st) /\ id plan = id e /\
                    filter (isEditing st) (plans st) = [plan])
  end.
Proof.
  intros Hnd; unfold isEditing; destruct (editingPlan st) as [e|].
  - apply (editing_cards (plans st) (id e) Hnd).
  - clear Hnd; generalize (plans st) as ps.
    induction ps as [|x t IH]; simpl; [reflexivity|exact IH].
Qed.

Lemma one_card_in_edit_mode_witness :
  NoDup (ids (plans sessionAB)) /\
  match editingPlan sessionAB with
  | None => filter (isEditing sessionAB) (plans sessionAB) = []
  | Some e =>
      (~ In (id e) (ids (plans sessionAB)) /\
       filter (isEditing sessionAB) (plans sessionAB) = []) \/
      (exists plan, In plan (plans sessionAB) /\ id plan = id e /\
                    filter (isEditing sessionAB) (plans sessionAB) = [plan])
  end.
Proof.
  split; [exact initialPlans_distinct|].
  exact (one_card_in_edit_mode sessionAB initialPlans_distinct).
Defined.

(** ** The invariant of the page *)

Lemma fixedFields_id (p q : Plan) :
  fixedFields p = fixedFields q -> id p = id q.
Proof. unfold fixedFields; intros H; now inversion H. Qed.

Lemma ids_fixedFields (ps : list Plan) :
  ids ps = map (fun c => fst (fst (fst (fst c)))) (map fixedFields ps).
Proof. unfold ids; now rewrite map_map. Qed.

Lemma kept_distinct (ps : list Plan)
      (keep : Z * Z * Z * Icon * string -> bool) :
  map fixedFields ps = filter keep (map fixedFields initialPlans) ->
  NoDup (ids ps).
Proof.
  intros H; rewrite ids_fixedFields, H; simpl.
  destruct (keep _); destruct (keep _); destruct (keep _); simpl;
    repeat constructor; simpl; intuition discriminate.
Qed.

Lemma ui_invariant_distinct (st : State) :
  ui_invariant st -> NoDup (ids (plans st)).
Proof. intros [[keep Hk] _]; apply (kept_distinct _ keep Hk). Qed.

Lemma ui_invariant_init : ui_invariant initialState.
Proof.
  split.
  - exists (fun _ => true); now rewrite filter_all.
  - intros e He; discriminate He.
Qed.

(** The invariant passes to a state whose registry is the old one with
    some plans filtered out, up to the fields outside [fixedFields]. *)
Lemma ui_invariant_build (st st' : State) :
  ui_invariant st ->
  (exists keep,
      map fixedFields (plans st') = filter keep (map fixedFields (plans st))) ->
  (forall e,
      editingPlan st' = Some e ->
      exists plan, In plan (plans st') /\ fixedFields plan = fixedFields e) ->
  ui_invariant st'.
Proof.
  intros [[keep Hk] _] [keep' Hk'] Hses; split; [|exact Hses].
  rewrite Hk' , Hk, filter_filter_and; eauto.
Qed.

Lemma ui_invariant_session (st : State) (e' : Plan) :
  ui_invariant st ->
  (exists plan, In plan (plans st) /\ fixedFields plan = fixedFields e') ->
  ui_invariant (setEditingPlan (Some e') st).
Proof.
  intros Hinv Hplan; apply (ui_invariant_build st); [exact Hinv| |].
  - exists (fun _ => true); now rewrite filter_all.
  - intros e He; simpl in He; now injection He as <-.
Qed.

Lemma fixedFields_saved (ps : list Plan) (e p : Plan) :
  NoDup (ids ps) ->
  (exists plan, In plan ps /\ fixedFields plan = fixedFields e) ->
  In p ps ->
  fixedFields (saved e p) = fixedFields p.
Proof.
  intros Hnd [plan [Hin Hfix]] Hp; unfold saved.
  destruct (Z.eqb_spec (id p) (id e)) as [Heq|]; [|reflexivity].
  rewrite <- Hfix; f_equal.
  apply (ids_distinct_eq ps); auto.
  rewrite Heq; now apply fixedFields_id.
Qed.

Lemma fixedFields_toggled (planId : Z) (p : Plan) :
  fixedFields (toggled planId p) = fixedFields p.
Proof. unfold toggled; now destruct (id p =? planId). Qed.

Lemma fixedFields_filter (planId : Z) (ps : list Plan) :
  map fixedFields (filter (fun plan => negb (id plan =? planId)) ps)
  = filter (fun c => negb (fst (fst (fst (fst c))) =? planId))
           (map fixedFields ps).
Proof.
  induction ps as [|x t IH]; simpl; [reflexivity|].
  destruct (id x =? planId); simpl; now rewrite IH.
Qed.

Lemma ui_step_invariant (st st' : State) :
  ui_invariant st -> ui_step st st' -> ui_invariant st'.
Proof.
  intros Hinv Hstep.
  pose proof (ui_invariant_distinct st Hinv) as Hnd.
  pose proof Hinv as [_ Hses].
  destruct Hstep as [a Hin| |plan e st' Hp Hed He Hedit].
  - apply offered_in in Hin as [plan [Hp Hin]]; apply cardActions_in in Hin.
    destruct a as [p| | |c planId|planId|planId f|planId i]; unfold step; simpl.
    + destruct Hin as [-> _]; unfold handleEditPlan; rewrite spread_eq.
      apply ui_invariant_session; eauto.
    + apply isEditing_true in Hin as [e [He _]].
      rewrite (handleSavePlan_open st e He).
      apply (ui_invariant_build st); [exact Hinv| |discriminate].
      exists (fun _ => true); rewrite filter_all; simpl.
      rewrite map_map; apply map_ext_in; intros p Hin.
      apply (fixedFields_saved (plans st)); auto.
    + apply (ui_invariant_build st); [exact Hinv| |discriminate].
      exists (fun _ => true); now rewrite filter_all.
    + destruct Hin as [-> Hed]; destruct c; simpl; [|exact Hinv].
      apply (ui_invariant_build st); [exact Hinv| |]; simpl.
      * eexists; apply fixedFields_filter.
      * intros e He; destruct (Hses e He) as [q [Hq Hfix]].
        exists q; split; [|exact Hfix].
        apply filter_In; split; [exact Hq|].
        apply negb_true_iff, Z.eqb_neq.
        rewrite (fixedFields_id _ _ Hfix).
        apply (isEditing_false st plan e Hed He).
    + apply (ui_invariant_build st); [exact Hinv| |]; simpl.
      * exists (fun _ => true); rewrite filter_all, map_map.
        apply map_ext; intros p; apply (fixedFields_toggled planId).
      * intros e He; destruct (Hses e He) as [q [Hq Hfix]].
        exists (toggled planId q); split.
        -- now apply in_map.
        -- now rewrite (fixedFields_toggled planId).
    + unfold addFeature; destruct (editingPlan st) as [e|] eqn:He;
        [|exact Hinv].
      destruct (id e =? planId); [|exact Hinv].
      apply ui_invariant_session; [exact Hinv|]; apply (Hses e eq_refl).
    + unfold removeFeature; destruct (editingPlan st) as [e|] eqn:He;
        [|exact Hinv].
      destruct (id e =? planId); [|exact Hinv].
      apply ui_invariant_session; [exact Hinv|]; apply (Hses e eq_refl).
  - apply (ui_invariant_build st); [exact Hinv| |exact Hses].
    exists (fun _ => true); now rewrite filter_all.
  - destruct Hedit as [v|v|v|v|index v st' _ Hch];
      try (apply ui_invariant_session; [exact Hinv|]; apply (Hses e He)).
    unfold changeFeature in Hch.
    destruct (array_assign (features e) index v) as [fs|]; [|discriminate].
    injection Hch as <-.
    apply ui_invariant_session; [exact Hinv|]; apply (Hses e He).
Qed.

Lemma ui_reachable_invariant (st : State) :
  ui_reachable st -> ui_invariant st.
Proof.
  induction 1 as [|st st' _ IH Hstep].
  - apply ui_invariant_init.
  - apply (ui_step_invariant st st' IH Hstep).
Qed.

Lemma ui_reachable_afterToggleDelete : ui_reachable afterToggleDelete.
Proof.
  unfold afterToggleDelete.
  apply ui_reachable_step with (st := step initialState (TogglePlan 2)).
  - apply ui_reachable_step with (st := initialState).
    + apply ui_reachable_init.
    + apply ui_action; simpl; do 4 right; left; reflexivity.
  - apply ui_action; simpl; do 2 right; left; reflexivity.
Qed.

Lemma fold_subscribers_fixedFields (ps : list Plan) (a : Z) :
  fold_left (fun sum plan => sum + subscribers plan) ps a
  = fold_left (fun sum c => sum + snd (fst (fst c))) (map fixedFields ps) a.
Proof.
  revert a; induction ps as [|p t IH]; intros a; simpl; [reflexivity|].
  apply IH.
Qed.

(** X14.  In every state that the page can reach from its first render
    (by the handler calls it offers, the add-plan button and the inputs
    of the edit form, the price inputs with texts that parse to a
    number), every plan of the registry has the id, [maxApps],
    subscribers, icon and colour of one of the three initial plans, the
    ids are distinct, there are at most three plans and the total of
    subscribers lies between 0 and 2350. *)
Theorem ui_reachable_registry (st : State) :
  ui_reachable st ->
  NoDup (ids (plans st)) /\
  (forall plan,
      In plan (plans st) ->
      exists initial,
        In initial initialPlans /\ fixedFields plan = fixedFields initial) /\
  totalPlans st <= 3 /\
  0 <= totalSubscribers st <= 2350.
Proof.
  intros Hr; pose proof (ui_reachable_invariant st Hr) as Hinv.
  split; [apply (ui_invariant_distinct st Hinv)|].
  destruct Hinv as [[keep Hk] _]; split; [|split].
  - intros plan Hin.
    apply (in_map fixedFields) in Hin; rewrite Hk in Hin.
    apply filter_In in Hin as [Hin _].
    apply in_map_iff in Hin as [initial [Heq Hin]]; eauto.
  - unfold totalPlans; rewrite <- (length_map fixedFields), Hk.
    pose proof (filter_length_le keep (map fixedFields initialPlans)) as Hle.
    change (List.length (map fixedFields initialPlans)) with 3%nat in Hle.
    lia.
  - unfold totalSubscribers; rewrite fold_subscribers_fixedFields, Hk; simpl.
    destruct (keep _); destruct (keep _); destruct (keep _); simpl; lia.
Qed.

Lemma ui_reachable_registry_witness :
  ui_reachable afterToggleDelete /\
  NoDup (ids (plans afterToggleDelete)) /\
  (forall plan,
      In plan (plans afterToggleDelete) ->
      exists initial,
        In initial initialPlans /\ fixedFields plan = fixedFields initial) /\
  totalPlans afterToggleDelete <= 3 /\
  0 <= totalSubscribers afterToggleDelete <= 2350.
Proof.
  split; [exact ui_reachable_afterToggleDelete|].
  exact (ui_reachable_registry afterToggleDelete ui_reachable_afterToggleDelete).
Defined.

Lemma filter_isEditing (st : State) (e : Plan) :
  editingPlan st = Some e ->
  filter (isEditing st) (plans st)
  = filter (fun plan => id e =? id plan) (plans st).
Proof.
  intros He; apply filter_ext; intros plan; unfold isEditing; now rewrite He.
Qed.

(** X15.  In every state that the page can reach from its first render
    (by the handler calls it offers, the add-plan button and the inputs
    of the edit form, the price inputs with texts that parse to a
    number), an open edit session is the session of a plan that is still in the registry: one plan of
    the registry has the id (and the other fixed fields) of the working
    copy, its card is the only card in edit mode, and the page offers
    both save and cancel. *)
Theorem ui_reachable_session (st : State) (e : Plan) :
  ui_reachable st ->
  editingPlan st = Some e ->
  exists plan,
    In plan (plans st) /\
    fixedFields plan = fixedFields e /\
    filter (isEditing st) (plans st) = [plan] /\
    In SavePlan (offered st) /\
    In CancelEdit (offered st).
Proof.
  intros Hr He; pose proof (ui_reachable_invariant st Hr) as Hinv.
  pose proof (ui_invariant_distinct st Hinv) as Hnd.
  destruct Hinv as [_ Hses]; destruct (Hses e He) as [plan [Hin Hfix]].
  pose proof (fixedFields_id _ _ Hfix) as Hid.
  assert (Hed : isEditing st plan = true)
    by (unfold isEditing; rewrite He; now apply Z.eqb_eq).
  exists plan; split; [exact Hin|]; split; [exact Hfix|]; split.
  - rewrite (filter_isEditing st e He).
    destruct (editing_cards (plans st) (id e) Hnd)
      as [[Hn _]|[q [Hq [Hqid Hf]]]].
    + exfalso; apply Hn; rewrite <- Hid; now apply in_map.
    + rewrite Hf; f_equal; apply (ids_distinct_eq (plans st)); auto.
      congruence.
  - split; apply offered_in; exists plan; (split; [exact Hin|]);
      unfold cardActions; rewrite Hed; simpl; right;
      apply in_or_app; right; simpl; auto.
Qed.

Lemma ui_reachable_editing : ui_reachable (handleEditPlan diamondPlan initialState).
Proof.
  apply ui_reachable_step with (st := initialState).
  - apply ui_reachable_init.
  - apply (ui_action initialState (EditPlan diamondPlan)).
    simpl; do 9 right; left; reflexivity.
Qed.

Lemma ui_reachable_session_witness :
  ui_reachable (handleEditPlan diamondPlan initialState) /\
  editingPlan (handleEditPlan diamondPlan initialState) = Some diamondPlan /\
  exists plan,
    In plan (plans (handleEditPlan diamondPlan initialState)) /\
    fixedFields plan = fixedFields diamondPlan /\
    filter (isEditing (handleEditPlan diamondPlan initialState))
           (plans (handleEditPlan diamondPlan initialState))
    = [plan] /\
    In SavePlan (offered (handleEditPlan diamondPlan initialState)) /\
    In CancelEdit (offered (handleEditPlan diamondPlan initialState)).
Proof.
  split; [exact ui_reachable_editing|].
  split; [reflexivity|].
  exact (ui_reachable_session (handleEditPlan diamondPlan initialState)
           diamondPlan ui_reachable_editing eq_refl).
Defined.

(** ** Colour classes *)

Lemma existsb_not_in (color : string) (keys : list string) :
  ~ In color keys -> existsb (String.eqb color) keys = false.
Proof.
  induction keys as [|k t IH]; simpl; intros Hn; [reflexivity|].
  destruct (String.eqb_spec color k) as [->|_]; simpl.
  - exfalso; apply Hn; now left.
  - apply IH; intros Hin; apply Hn; now right.
Qed.

Lemma ownProperty_colors (color : string) :
  ownProperty color colors
  = if String.eqb "blue" color
    then Some "bg-blue-500 text-blue-600 bg-blue-100"
    else if String.eqb "purple" color
         then Some "bg-purple-500 text-purple-600 bg-purple-100"
         else if String.eqb "amber" color
              then Some "bg-amber-500 text-amber-600 bg-amber-100"
              else None.
Proof. reflexivity. Qed.

(** X16.  [getColorClasses(plan.color).split(' ')] throws when the
    colour of the plan is the name of a member of [Object.prototype];
    for every other colour it gives three classes, which are the blue
    ones when the colour is not blue, purple or amber. *)
Theorem colorClasses_cases (plan : Plan) :
  (In (color plan) objectPrototypeKeys ->
   colorClasses plan = Throw TypeError) /\
  (~ In (color plan) objectPrototypeKeys ->
   exists c1 c2 c3,
     colorClasses plan = Normal [c1; c2; c3] /\
     (~ In (color plan) ["blue"; "purple"; "amber"] ->
      [c1; c2; c3] = ["bg-blue-500"; "text-blue-600"; "bg-blue-100"])).
Proof.
  unfold colorClasses; split.
  - intros Hin; simpl in Hin.
    repeat (destruct Hin as [<-|Hin]; [reflexivity|]); contradiction.
  - intros Hn; unfold getColorClasses, colorsGet.
    rewrite (existsb_not_in _ _ Hn), ownProperty_colors.
    destruct (String.eqb_spec "blue" (color plan)) as [Hb|Hb];
      [do 3 eexists; split; [reflexivity|];
       intros H; exfalso; apply H; rewrite <- Hb; simpl; auto|].
    destruct (String.eqb_spec "purple" (color plan)) as [Hp|Hp];
      [do 3 eexists; split; [reflexivity|];
       intros H; exfalso; apply H; rewrite <- Hp; simpl; auto|].
    destruct (String.eqb_spec "amber" (color plan)) as [Ha|Ha];
      [do 3 eexists; split; [reflexivity|];
       intros H; exfalso; apply H; rewrite <- Ha; simpl; auto|].
    do 3 eexists; split; reflexivity.
Qed.

(** X17.  In every state that the page can reach from its first render
    (by the handler calls it offers, the add-plan button and the inputs
    of the edit form, the price inputs with texts that parse to a
    number), the colour of every plan of the registry is blue, purple or amber, and the colour lookup
    of its card returns the three classes of that very colour: it neither
    throws nor falls back. *)
Theorem ui_reachable_colorClasses (st : State) (plan : Plan) :
  ui_reachable st ->
  In plan (plans st) ->
  In (color plan) ["blue"; "purple"; "amber"] /\
  colorClasses plan
  = Normal [ ("bg-" ++ color plan ++ "-500")%string;
             ("text-" ++ color plan ++ "-600")%string;
             ("bg-" ++ color plan ++ "-100")%string ].
Proof.
  intros Hr Hin; destruct (ui_reachable_invariant st Hr) as [[keep Hk] _].
  apply (in_map fixedFields) in Hin; rewrite Hk in Hin.
  apply filter_In in Hin as [Hin _].
  apply in_map_iff in Hin as [initial [Heq Hin]].
  assert (Hc : color plan = color initial)
    by (unfold fixedFields in Heq; now inversion Heq).
  unfold colorClasses; rewrite Hc.
  simpl in Hin; destruct Hin as [<-|[<-|[<-|[]]]]; split;
    simpl; auto; reflexivity.
Qed.

Lemma ui_reachable_colorClasses_witness :
  ui_reachable afterToggleDelete /\
  In (toggled 2 professionalPlan) (plans afterToggleDelete) /\
  In (color (toggled 2 professionalPlan)) ["blue"; "purple"; "amber"] /\
  colorClasses (toggled 2 professionalPlan)
  = Normal [ ("bg-" ++ color (toggled 2 professionalPlan) ++ "-500")%string;
             ("text-" ++ color (toggled 2 professionalPlan) ++ "-600")%string;
             ("bg-" ++ color (toggled 2 professionalPlan) ++ "-100")%string ].
Proof.
  assert (Hin : In (toggled 2 professionalPlan) (plans afterToggleDelete))
    by (simpl; left; reflexivity).
  split; [exact ui_reachable_afterToggleDelete|].
  split; [exact Hin|].
  exact (ui_reachable_colorClasses afterToggleDelete
           (toggled 2 professionalPlan) ui_reachable_afterToggleDelete Hin).
Defined.

(** ** The feature inputs *)

Lemma nth_error_replace {A : Type} (l : list A) (n k : nat) (v : A) :
  (n < List.length l)%nat ->
  nth_error (firstn n l ++ v :: skipn (S n) l) k
  = if (k =? n)%nat then Some v else nth_error l k.
Proof.
  intros Hn.
  assert (Hlen : List.length (firstn n l) = n)
    by (rewrite firstn_length_le; lia).
  destruct (Nat.eqb_spec k n) as [->|Hne].
  - rewrite nth_error_app2 by lia. now rewrite Hlen, Nat.sub_diag.
  - destruct (Nat.lt_ge_cases k n) as [Hk|Hk].
    + rewrite nth_error_app1 by lia. rewrite nth_error_firstn.
      destruct (Nat.ltb_spec k n); [reflexivity|lia].
    + rewrite nth_error_app2 by lia. rewrite Hlen.
      replace (k - n)%nat with (S (k - S n)) by lia; cbn [nth_error].
      rewrite nth_error_skipn; f_equal; lia.
Qed.

(** X18.  For the index of a displayed feature, the feature input
    replaces that feature of the working copy by the text typed and
    changes nothing else: the registry, the other fields of the working
    copy, the number of features and the features at the other indices
    are as before. *)
Theorem changeFeature_assigns (st : State) (e : Plan) (index : Z)
        (value : string) :
  0 <= index < Z.of_nat (List.length (features e)) ->
  exists st' e',
    changeFeature e index value st = Some st' /\
    plans st' = plans st /\
    editingPlan st' = Some e' /\
    with_features (features e) e' = e /\
    List.length (features e') = List.length (features e) /\
    forall k,
      nth_error (features e') k
      = if Z.of_nat k =? index then Some value else nth_error (features e) k.
Proof.
  intros Hi; unfold changeFeature, array_assign.
  assert (Hc : (0 <=? index) && (index <? Z.of_nat (List.length (features e)))
               = true)
    by (apply andb_true_iff; split; [apply Z.leb_le|apply Z.ltb_lt]; lia).
  rewrite Hc; do 2 eexists; split; [reflexivity|].
  split; [reflexivity|]; split; [reflexivity|].
  rewrite features_with_features; split; [now destruct e|]; split.
  - rewrite length_app, firstn_length_le by lia.
    cbn [List.length]; rewrite length_skipn; lia.
  - intros k; rewrite nth_error_replace by lia.
    destruct (Nat.eqb_spec k (Z.to_nat index)),
             (Z.eqb_spec (Z.of_nat k) index); try reflexivity; lia.
Qed.

Lemma changeFeature_assigns_witness :
  0 <= 1 < Z.of_nat (List.length (features copyAB)) /\
  exists st' e',
    changeFeature copyAB 1 "C" sessionAB = Some st' /\
    plans st' = plans sessionAB /\
    editingPlan st' = Some e' /\
    with_features (features copyAB) e' = copyAB /\
    List.length (features e') = List.length (features copyAB) /\
    forall k,
      nth_error (features e') k
      = if Z.of_nat k =? 1 then Some "C" else nth_error (features copyAB) k.
Proof.
  assert (Hi : 0 <= 1 < Z.of_nat (List.length (features copyAB)))
    by (simpl; lia).
  split; [exact Hi|].
  exact (changeFeature_assigns sessionAB copyAB 1 "C" Hi).
Defined.

(** * The dashboard layout *)

Lemma dashboard_activeTab (st : Dashboard.State) :
  Dashboard.reachable st ->
  exists item,
    In item Dashboard.navigation /\ Dashboard.activeTab st = Dashboard.id item.
Proof.
  induction 1 as [|st st' _ IH Hstep].
  - eexists; split; [left; reflexivity|reflexivity].
  - destruct IH as [old [Hold Hact]].
    destruct Hstep as [item Hin|_| |]; simpl.
    + exists item; auto.
    + exists old; auto.
    + exists old; auto.
    + exists old; auto.
Qed.

(** X19.  In every state of the layout reachable from its first render
    the active tab is the id of an item of the navigation menu, the
    button of that item is the only one drawn as active, and
    [renderContent] shows the home overview only on the home tab: its
    [default] branch is never taken. *)
Theorem dashboard_one_active_tab (st : Dashboard.State) :
  Dashboard.reachable st ->
  exists item,
    In item Dashboard.navigation /\
    Dashboard.activeTab st = Dashboard.id item /\
    filter (Dashboard.isActive st) Dashboard.navigation = [item] /\
    (Dashboard.renderContent st = Dashboard.DashboardHomeContent <->
     Dashboard.activeTab st = "home").
Proof.
  intros Hr; destruct (dashboard_activeTab st Hr) as [item [Hin Hact]].
  exists item; split; [exact Hin|]; split; [exact Hact|].
  unfold Dashboard.isActive, Dashboard.renderContent; rewrite Hact.
  simpl in Hin; destruct Hin as [<-|[<-|[<-|[<-|[<-|[]]]]]]; simpl;
    (split; [reflexivity|split; intros H; (reflexivity || discriminate H)]).
Qed.

Lemma dashboard_reachable_pricing :
  Dashboard.reachable
    (Dashboard.selectTab
       (Dashboard.mkNavItem "pricing" "إدارة الأسعار" Dashboard.DollarSign)
       (Dashboard.openSidebar Dashboard.initialState)).
Proof.
  apply Dashboard.reachable_step
    with (st := Dashboard.openSidebar Dashboard.initialState).
  - apply Dashboard.reachable_step with (st := Dashboard.initialState).
    + apply Dashboard.reachable_init.
    + apply Dashboard.step_menu.
  - apply Dashboard.step_nav; simpl; right; left; reflexivity.
Qed.

Lemma dashboard_one_active_tab_witness :
  Dashboard.reachable
    (Dashboard.selectTab
       (Dashboard.mkNavItem "pricing" "إدارة الأسعار" Dashboard.DollarSign)
       (Dashboard.openSidebar Dashboard.initialState)) /\
  exists item,
    In item Dashboard.navigation /\
    Dashboard.activeTab
      (Dashboard.selectTab
         (Dashboard.mkNavItem "pricing" "إدارة الأسعار" Dashboard.DollarSign)
         (Dashboard.openSidebar Dashboard.initialState))
    = Dashboard.id item /\
    filter (Dashboard.isActive
              (Dashboard.selectTab
                 (Dashboard.mkNavItem "pricing" "إدارة الأسعار"
                                      Dashboard.DollarSign)
                 (Dashboard.openSidebar Dashboard.initialState)))
           Dashboard.navigation
    = [item] /\
    (Dashboard.renderContent
       (Dashboard.selectTab
          (Dashboard.mkNavItem "pricing" "إدارة الأسعار" Dashboard.DollarSign)
          (Dashboard.openSidebar Dashboard.initialState))
     = Dashboard.DashboardHomeContent <->
     Dashboard.activeTab
       (Dashboard.selectTab
          (Dashboard.mkNavItem "pricing" "إدارة الأسعار" Dashboard.DollarSign)
          (Dashboard.openSidebar Dashboard.initialState))
     = "home").
Proof.
  split; [exact dashboard_reachable_pricing|].
  exact (dashboard_one_active_tab _ dashboard_reachable_pricing).
Defined.

(** * Login *)

(** X20.  The timer callback of [handleSubmit] logs in with exactly one
    pair of strings.  With that email and that password [App] shows the
    dashboard afterwards and nothing is alerted; with any other pair the
    alert is raised and [App] keeps the view it showed.  In both cases
    the loading flag is cleared. *)
Theorem timerCallback_cases (email password : string) (isLoggedIn : bool) :
  (email = "dmposhy04@gmail.com" /\ password = "A123456789a" ->
   LoginPage.timerCallback email password isLoggedIn = (true, None, false) /\
   App.render (fst (fst (LoginPage.timerCallback email password isLoggedIn)))
   = App.DashboardView) /\
  (~ (email = "dmposhy04@gmail.com" /\ password = "A123456789a") ->
   LoginPage.timerCallback email password isLoggedIn
   = (isLoggedIn, Some "بيانات الدخول غير صحيحة", false) /\
   App.render (fst (fst (LoginPage.timerCallback email password isLoggedIn)))
   = App.render isLoggedIn).
Proof.
  unfold LoginPage.timerCallback, LoginPage.credentialsMatch; split.
  - intros [-> ->]; split; reflexivity.
  - intros Hn.
    destruct (String.eqb_spec email "dmposhy04@gmail.com") as [He|He];
      [|split; reflexivity].
    destruct (String.eqb_spec password "A123456789a") as [Hp|Hp];
      [|split; reflexivity].
    exfalso; apply Hn; auto.
Qed.

(** The password that the header comment of [LoginPage.jsx] names is not
    the one the code accepts. *)
Lemma documented_password_is_refused (isLoggedIn : bool) :
  LoginPage.timerCallback "dmposhy04@gmail.com" "admin123" isLoggedIn
  = (isLoggedIn, Some "بيانات الدخول غير صحيحة", false).
Proof. reflexivity. Qed.
